(** * all-hands: the overlay patch engine (scripts/allhands/patch.py, update.py)

    A shallow embedding of the patch header codec, the patch generator and
    applier, the overlay store and the update orchestrator, together with the
    properties of the specification that concern them.

    Conventions of the model.
    - A Python [str] is a Rocq [string]; a character is an [ascii], that is a
      code point below 256.  File contents read as bytes or as text are the
      same [string]: decoding and newline translation are not modelled.
    - A directory tree is a finite map from relative path strings to file
      contents ([gmap string string]).  Paths are normalized, so that
      distinct strings name distinct files; directories carry no bytes and
      are implicit in the paths, so [mkdir(parents=True, exist_ok=True)] has
      no counterpart.
    - External processes (git, diff, patch), the manifest collaborator, the
      clock and the terminal are fields of an environment record [Env].
    - Diagnostics printed on stdout and stderr are not modelled; every
      external process invocation is recorded in a trace.
    - The only exception modelled is the [RuntimeError] that
      [get_current_commit] raises; input and output errors of the file
      system are not. *)

From stdpp Require Import base strings list gmap fin_maps sorting.
From Stdlib Require Import ZArith Ascii.
From Stdlib Require String.

Local Open Scope Z_scope.

(** ** Python string primitives *)

Module Py.

Definition LF : ascii := "010"%char.
Definition nl : string := String LF "".

(** [str.isspace] on one code point below 256: TAB..CR, FS..US, SPACE,
    NEL (0x85) and NBSP (0xA0). *)
Definition isspace (c : ascii) : bool :=
  let n := nat_of_ascii c in
  ((9 <=? n) && (n <=? 13))%nat || ((28 <=? n) && (n <=? 32))%nat
  || (n =? 133)%nat || (n =? 160)%nat.

Fixpoint lstrip (s : string) : string :=
  match s with
  | "" => ""
  | String c s' => if isspace c then lstrip s' else s
  end.

Fixpoint rstrip (s : string) : string :=
  match s with
  | "" => ""
  | String c s' =>
      match rstrip s' with
      | "" => if isspace c then "" else String c ""
      | r => String c r
      end
  end.

(** [s.strip()] *)
Definition strip (s : string) : string := rstrip (lstrip s).

(** The truth value of a [str]: non-empty. *)
Definition truthy (s : string) : bool :=
  match s with "" => false | _ => true end.

(** [s.split(sep)] for a one-character separator. *)
Fixpoint split (sep : ascii) (s : string) : list string :=
  match s with
  | "" => [""]
  | String c s' =>
      if Ascii.eqb c sep then "" :: split sep s'
      else match split sep s' with
           | l :: ls => String c l :: ls
           | [] => [String c ""]
           end
  end.

(** [sep.join(l)] *)
Fixpoint join (sep : string) (l : list string) : string :=
  match l with
  | [] => ""
  | [x] => x
  | x :: xs => x +:+ sep +:+ join sep xs
  end.

(** [s.startswith(p)] *)
Fixpoint startswith (p s : string) : bool :=
  match p, s with
  | "", _ => true
  | String a p', String b s' => Ascii.eqb a b && startswith p' s'
  | String _ _, "" => false
  end.

(** [s[:n]] *)
Fixpoint take (n : nat) (s : string) : string :=
  match n, s with
  | S n', String c s' => String c (take n' s')
  | _, _ => ""
  end.

(** [s.lower()] on the ASCII letters, which is all that a comparison with
    ["y"] can tell. *)
Definition lower_char (c : ascii) : ascii :=
  let n := nat_of_ascii c in
  if ((65 <=? n) && (n <=? 90))%nat then ascii_of_nat (n + 32) else c.

Fixpoint lower (s : string) : string :=
  match s with
  | "" => ""
  | String c s' => String (lower_char c) (lower s')
  end.

(** Every character of [s] satisfies [p]. *)
Fixpoint all_chars (p : ascii → bool) (s : string) : bool :=
  match s with
  | "" => true
  | String c s' => p c && all_chars p s'
  end.

End Py.

(** ** The two regular expressions of [PatchHeader.parse] *)

Module Re.

(** The character class [[a-f0-9]]. *)
Definition is_hex (c : ascii) : bool :=
  let n := nat_of_ascii c in
  ((48 <=? n) && (n <=? 57))%nat || ((97 <=? n) && (n <=? 102))%nat.

(** [.] without DOTALL: anything but a line feed. *)
Definition is_dot (c : ascii) : bool := negb (Ascii.eqb c Py.LF).

(** The longest prefix of [s] whose characters satisfy [p]: what a greedy
    [[class]+] or [.+] consumes. *)
Fixpoint greedy (p : ascii → bool) (s : string) : string :=
  match s with
  | "" => ""
  | String c s' => if p c then String c (greedy p s') else ""
  end.

(** Match a literal at the head of [s]; the rest of [s] on success. *)
Fixpoint literal (lit s : string) : option string :=
  match lit, s with
  | "", _ => Some s
  | String a lit', String b s' => if Ascii.eqb a b then literal lit' s' else None
  | String _ _, "" => None
  end.

Definition base_prefix : string := "# claude-all-hands base: ".
Definition generated_prefix : string := "# generated: ".

(** [# claude-all-hands base: ([a-f0-9]+)] tried at the head of [s]; the
    result is group 1.  The class is greedy and nothing follows it, so the
    first attempt of the engine is the longest run and it succeeds as soon
    as the run is not empty. *)
Definition base_at (s : string) : option string :=
  match literal base_prefix s with
  | Some rest =>
      let g := greedy is_hex rest in
      if Py.truthy g then Some g else None
  | None => None
  end.

(** [# generated: (.+)$] tried at the head of [s]; the result is group 1.
    The greedy [.+] stops in front of a line feed or at the end of the text,
    where the MULTILINE [$] holds, so no backtracking is needed. *)
Definition generated_at (s : string) : option string :=
  match literal generated_prefix s with
  | Some rest =>
      let g := greedy is_dot rest in
      if Py.truthy g then Some g else None
  | None => None
  end.

(** [re.search] of a pattern that starts with a MULTILINE [^]: the
    positions are tried from left to right, and the pattern can only match
    at the start of the text or just after a line feed.  [bol] tells whether
    the head of [s] is such a position. *)
Fixpoint search_from (m : string → option string) (bol : bool) (s : string)
  : option string :=
  match (if bol then m s else None) with
  | Some g => Some g
  | None =>
      match s with
      | "" => None
      | String c s' => search_from m (Ascii.eqb c Py.LF) s'
      end
  end.

Definition search (m : string → option string) (content : string) : option string :=
  search_from m true content.

End Re.

(** ** patch.py: PatchHeader *)

Record PatchHeader := mkPatchHeader {
  base_commit : string;
  generated : string
}.

Module PatchHeader.

(** [PatchHeader.parse] *)
Definition parse (content : string) : option PatchHeader :=
  let base_match := Re.search Re.base_at content in
  let gen_match := Re.search Re.generated_at content in
  match base_match with
  | Some b =>
      Some {| base_commit := b;
              generated := match gen_match with Some g => g | None => "" end |}
  | None => None
  end.

(** [PatchHeader.to_string] *)
Definition to_string (h : PatchHeader) : string :=
  Re.base_prefix +:+ base_commit h +:+ Py.nl +:+
  Re.generated_prefix +:+ generated h +:+ Py.nl +:+ Py.nl.

End PatchHeader.

(** ** The world the scripts run in *)

(** One entry per external interaction. *)
Inductive event :=
| EvGitStaged                                  (* git diff --cached --name-only *)
| EvGitRevParse                                (* git rev-parse HEAD *)
| EvDiff (file_path source_content target_content : string)   (* diff -u *)
| EvPatch (dry_run : bool) (patch_body : string)               (* patch -p1 --forward *)
| EvInput.                                     (* input(...) on the terminal *)

(** The mutable part: the files under [target_root] and the interactions so
    far (most recent last). *)
Record World := mkWorld {
  target : gmap string string;
  trace : list event
}.

(** What a run cannot change: the source tree under [allhands_root], the
    collaborators and the external tools.  A tool is a function of what it
    is given.  [patch --dry-run] reports without writing, so it yields no
    tree; the real run yields the tree it leaves behind. *)
Record Env := mkEnv {
  source : gmap string string;
  git_dir : bool;                      (* (target_root / ".git").exists() *)
  distributable : list string;         (* manifest.get_distributable_files(),
                                          as str(p), in iteration order *)
  git_staged : Z * string;             (* returncode, stdout *)
  git_rev_parse : Z * string * string; (* returncode, stdout, stderr *)
  today : string;                      (* datetime.now().strftime("%Y-%m-%d") *)
  diff_tool : string → string → string → Z * string;
                                       (* path, stdin, target file: returncode, stdout *)
  patch_dry_run : string → gmap string string → Z * string * string;
  patch_run : string → gmap string string → Z * string * string * gmap string string;
                                       (* body, tree: returncode, stdout, stderr (, tree) *)
  answer : string                      (* what the user types at the prompt *)
}.

(** Python exceptions the scripts raise themselves. *)
Inductive exn := RuntimeError (msg : string).

Inductive result (A : Type) :=
| Ok (a : A)
| Raise (e : exn).
Arguments Ok {A} a.
Arguments Raise {A} e.

(** Computations over the world; an exception keeps the effects done so far. *)
Definition M (A : Type) : Type := World → result A * World.

Definition ret {A} (a : A) : M A := λ w, (Ok a, w).

Definition bind {A B} (m : M A) (k : A → M B) : M B :=
  λ w, match m w with
       | (Ok a, w') => k a w'
       | (Raise e, w') => (Raise e, w')
       end.

Notation "'let*' x ':=' m 'in' k" := (bind m (λ x, k))
  (at level 10, x pattern, m at level 100, k at level 200).
Notation "m ';;' k" := (bind m (λ _, k))
  (at level 100, k at level 200, right associativity).

Definition raise {A} (e : exn) : M A := λ w, (Raise e, w).

Definition log (e : event) : M unit :=
  λ w, (Ok tt, {| target := target w; trace := trace w ++ [e] |}).

(** [(target_root / p).read_text()] when the file exists. *)
Definition read_file (p : string) : M (option string) :=
  λ w, (Ok (target w !! p), w).

(** [write_text] and [shutil.copy2] onto [target_root / p]. *)
Definition write_file (p content : string) : M unit :=
  λ w, (Ok tt, {| target := <[p := content]> (target w); trace := trace w |}).

(** [(target_root / p).unlink()] *)
Definition unlink (p : string) : M unit :=
  λ w, (Ok tt, {| target := delete p (target w); trace := trace w |}).

(** ** patch.py *)

Section Patch.
Context (E : Env).

(** [get_current_commit(allhands_root)] *)
Definition get_current_commit : M string :=
  log EvGitRevParse ;;
  let '(returncode, stdout, stderr) := git_rev_parse E in
  if negb (returncode =? 0)%Z then
    raise (RuntimeError ("Failed to get commit: " +:+ stderr))
  else ret (Py.take 7 (Py.strip stdout)).

(** The loop of [generate_patch]; [patches] accumulates the hunks. *)
Fixpoint generate_loop (files : list string) (patches : list string)
  : M (list string) :=
  match files with
  | [] => ret patches
  | file_path :: files' =>
      let* target_file := read_file file_path in
      match target_file with
      | None => generate_loop files' patches
      | Some target_content =>
          let source_content := default "" (source E !! file_path) in
          if String.eqb source_content target_content then
            generate_loop files' patches
          else
            log (EvDiff file_path source_content target_content) ;;
            let '(returncode, stdout) :=
              diff_tool E file_path source_content target_content in
            if (returncode =? 1)%Z then generate_loop files' (patches ++ [stdout])
            else generate_loop files' patches
      end
  end.

(** [generate_patch(allhands_root, target_root, files)] *)
Definition generate_patch (files : list string) : M string :=
  let* commit := get_current_commit in
  let header := {| base_commit := commit; generated := today E |} in
  let* patches := generate_loop files [] in
  match patches with
  | [] => ret ""
  | _ => ret (PatchHeader.to_string header +:+ Py.join Py.nl patches)
  end.

(** [subprocess.run(["patch", "-p1", "--forward"(, "--dry-run")], ...)] *)
Definition run_patch (dry_run : bool) (patch_body : string)
  : M (Z * string * string) :=
  log (EvPatch dry_run patch_body) ;;
  λ w, if dry_run then (Ok (patch_dry_run E patch_body (target w)), w)
       else let '(r, t') := patch_run E patch_body (target w) in
            (Ok r, {| target := t'; trace := trace w |}).

(** The text handed to the patch tool: the lines that do not start with [#]. *)
Definition patch_body_of (patch_content : string) : string :=
  Py.join Py.nl
    (List.filter (λ line, negb (Py.startswith "#" line))
                 (Py.split Py.LF patch_content)).

(** [apply_patch(target_root, patch_content, dry_run)] *)
Definition apply_patch (patch_content : string) (dry_run : bool)
  : M (bool * string) :=
  if negb (Py.truthy (Py.strip patch_content)) then
    ret (true, "No patch to apply")
  else
    let patch_body := patch_body_of patch_content in
    if negb (Py.truthy (Py.strip patch_body)) then
      ret (true, "No patch to apply (comments only)")
    else
      let* (returncode, stdout, stderr) := run_patch dry_run patch_body in
      if (returncode =? 0)%Z then ret (true, stdout)
      else ret (false, "Patch failed:" +:+ Py.nl +:+ stdout +:+ Py.nl +:+ stderr).

Definition patch_file : string := ".allhands.patch".

(** [read_patch_file(target_root)] *)
Definition read_patch_file : M string :=
  let* f := read_file patch_file in
  match f with
  | Some content => ret content
  | None => ret ""
  end.

(** [write_patch_file(target_root, content)] *)
Definition write_patch_file (content : string) : M unit :=
  if Py.truthy (Py.strip content) then write_file patch_file content
  else
    let* f := read_file patch_file in
    match f with
    | Some _ => unlink patch_file
    | None => ret tt
    end.

(** [get_patch_base_commit(target_root)] *)
Definition get_patch_base_commit : M (option string) :=
  let* content := read_patch_file in
  if Py.truthy content then
    match PatchHeader.parse content with
    | Some header => ret (Some (base_commit header))
    | None => ret None
    end
  else ret None.

End Patch.

(** ** update.py *)

(** The order of [pathlib] paths: the lists of their components, compared
    as Python compares lists of [str]. *)
Module PathOrder.

Fixpoint parts_leb (a b : list string) : bool :=
  match a, b with
  | [], _ => true
  | _ :: _, [] => false
  | x :: a', y :: b' =>
      match String.compare x y with
      | Lt => true
      | Gt => false
      | Eq => parts_leb a' b'
      end
  end.

Definition leb (p q : string) : bool :=
  parts_leb (Py.split "/"%char p) (Py.split "/"%char q).

Fixpoint insert (p : string) (l : list string) : list string :=
  match l with
  | [] => [p]
  | q :: l' => if leb p q then p :: l else q :: insert p l'
  end.

(** [sorted(paths)] *)
Definition sorted (paths : list string) : list string :=
  foldr insert [] paths.

End PathOrder.

Section Update.
Context (E : Env).

(** What [get_staged_files] makes of the finished git process. *)
Definition staged_of (result : Z * string) : gset string :=
  let '(returncode, stdout) := result in
  if negb (returncode =? 0)%Z then ∅
  else if Py.truthy (Py.strip stdout)
       then list_to_set (Py.split Py.LF (Py.strip stdout))
       else ∅.

(** [get_staged_files(target_root)] *)
Definition get_staged_files : M (gset string) :=
  log EvGitStaged ;;
  ret (staged_of (git_staged E)).

Definition manifest_file : string := ".allhands-manifest.json".

(** The copy loop of [cmd_update]; the result is [deleted_in_source].  The
    counters [updated] and [created] only feed the printed summary. *)
Fixpoint refresh (paths : list string) (deleted_in_source : list string)
  : M (list string) :=
  match paths with
  | [] => ret deleted_in_source
  | rel_path :: paths' =>
      let* target_file := read_file rel_path in
      match source E !! rel_path with
      | None =>
          match target_file with
          | Some _ => refresh paths' (deleted_in_source ++ [rel_path])
          | None => refresh paths' deleted_in_source
          end
      | Some source_bytes =>
          match target_file with
          | Some target_bytes =>
              if negb (String.eqb source_bytes target_bytes) then
                write_file rel_path source_bytes ;;
                refresh paths' deleted_in_source
              else refresh paths' deleted_in_source
          | None =>
              write_file rel_path source_bytes ;;
              refresh paths' deleted_in_source
          end
      end
  end.

(** [for f in deleted_in_source: if target_file.exists(): target_file.unlink()] *)
Fixpoint delete_all (fs : list string) : M unit :=
  match fs with
  | [] => ret tt
  | f :: fs' =>
      let* target_file := read_file f in
      match target_file with
      | Some _ => unlink f ;; delete_all fs'
      | None => delete_all fs'
      end
  end.

(** [auto_yes or input(...).strip().lower() == "y"] *)
Definition confirmed (auto_yes : bool) : M bool :=
  if auto_yes then ret true
  else log EvInput ;; ret (String.eqb (Py.lower (Py.strip (answer E))) "y").

(** The "Handle deleted files" block. *)
Definition handle_deleted (auto_yes : bool) (deleted_in_source : list string)
  : M unit :=
  match deleted_in_source with
  | [] => ret tt
  | _ =>
      let* yes := confirmed auto_yes in
      if yes then delete_all deleted_in_source else ret tt
  end.

(** The managed paths present in both trees with different bytes, in the
    iteration order of [distributable]. *)
Definition changed_in (t : gmap string string) : list string :=
  List.filter
    (λ rel_path,
       match t !! rel_path, source E !! rel_path with
       | Some target_bytes, Some source_bytes =>
           negb (String.eqb source_bytes target_bytes)
       | _, _ => false
       end)
    (distributable E).

(** The "Regenerate patch with new base" block, to the final [return 0]. *)
Definition regenerate : M Z :=
  let* changed_files := (λ w, (Ok (changed_in (target w)), w)) in
  match changed_files with
  | _ :: _ =>
      let* new_patch := generate_patch E changed_files in
      write_patch_file new_patch ;;
      ret 0
  | [] =>
      write_patch_file "" ;;
      ret 0
  end.

(** The "Re-apply patch" block and what follows it. *)
Definition reapply (existing_patch : string) : M Z :=
  if Py.truthy (Py.strip existing_patch) then
    let* (success, message) := apply_patch E existing_patch true in
    if success then
      let* (success', message') := apply_patch E existing_patch false in
      regenerate
    else ret 1
  else regenerate.

(** [cmd_update] from "Read existing patch" to the end: what runs once the
    checks have passed. *)
Definition update_body (auto_yes : bool) : M Z :=
  let* existing_patch := read_patch_file in
  let* base := get_patch_base_commit in
  let* deleted_in_source := refresh (PathOrder.sorted (distributable E)) [] in
  handle_deleted auto_yes deleted_in_source ;;
  reapply existing_patch.

(** [cmd_update(auto_yes)]; the result is the exit code. *)
Definition cmd_update (auto_yes : bool) : M Z :=
  if negb (git_dir E) then ret 1
  else if negb (bool_decide (is_Some (source E !! manifest_file))) then ret 1
  else
    let* staged := get_staged_files in
    let managed_paths : gset string := list_to_set (distributable E) in
    let conflicts := staged ∩ managed_paths in
    if negb (bool_decide (conflicts = ∅)) then ret 1
    else update_body auto_yes.

End Update.

(** ** The generator, in the words of the specification *)

Module Spec.

(** The hunk a path contributes to the document: none when the target has
    no such file, none when the source bytes (empty for a missing source
    file) equal the target bytes, and otherwise the output of the diff tool
    when it reports a difference (exit code 1). *)
Definition hunk (E : Env) (t : gmap string string) (file_path : string)
  : option string :=
  match t !! file_path with
  | None => None
  | Some target_content =>
      let source_content := default "" (source E !! file_path) in
      if String.eqb source_content target_content then None
      else
        let r := diff_tool E file_path source_content target_content in
        if (r.1 =? 1)%Z then Some r.2 else None
  end.

(** The document: empty without hunks, else the header in front of the
    hunks in the order of the paths. *)
Definition document (revision day : string) (hunks : list string) : string :=
  match hunks with
  | [] => ""
  | _ => PatchHeader.to_string {| base_commit := revision; generated := day |}
         +:+ Py.join Py.nl hunks
  end.

End Spec.

(** ** The tree operations of the orchestrator, as functions on trees

    The counterparts without trace of the loops of [cmd_update]; the lemmas
    [refresh_run], [handle_deleted_run] and [regenerate_run] relate them to
    the code. *)

Module Tree.
Section Tree.
Context (E : Env).

(** The copy of one managed path, when the source has it. *)
Definition copy_one (t : gmap string string) (p : string) : gmap string string :=
  match source E !! p with
  | Some source_bytes => <[p := source_bytes]> t
  | None => t
  end.

Definition copy_all (paths : list string) (t : gmap string string)
  : gmap string string :=
  foldl copy_one t paths.

(** The paths recorded in [deleted_in_source]. *)
Definition removed (t : gmap string string) (paths : list string) : list string :=
  List.filter
    (λ p, bool_decide (source E !! p = None) && bool_decide (is_Some (t !! p)))
    paths.

Definition delete_paths (fs : list string) (t : gmap string string)
  : gmap string string :=
  foldl (λ t f, delete f t) t fs.

Definition confirms (auto_yes : bool) : bool :=
  auto_yes || String.eqb (Py.lower (Py.strip (answer E))) "y".

(** The tree after the copy loop and the deletions. *)
Definition refreshed (auto_yes : bool) (t : gmap string string)
  : gmap string string :=
  let paths := PathOrder.sorted (distributable E) in
  let t1 := copy_all paths t in
  if confirms auto_yes then delete_paths (removed t paths) t1 else t1.

(** The effect of [write_patch_file] on the tree. *)
Definition store (content : string) (t : gmap string string)
  : gmap string string :=
  if Py.truthy (Py.strip content) then <[patch_file := content]> t
  else delete patch_file t.

(** The overlay that [regenerate] computes on [t], given the output of a
    successful revision query. *)
Definition new_overlay (rev_stdout : string) (t : gmap string string) : string :=
  match changed_in E t with
  | [] => ""
  | changed_files =>
      Spec.document (Py.take 7 (Py.strip rev_stdout)) (today E)
                    (omap (Spec.hunk E t) changed_files)
  end.

End Tree.
End Tree.

(** ** A small concrete setting

    One managed file [a.txt] that the target customizes ([v1] against the
    upstream [v2]), one managed file [b.txt] equal on both sides, and stand-ins
    for the tools that answer as GNU diff and GNU patch do on these inputs. *)

Module Demo.

Definition hunk_a : string :=
  "--- a/a.txt" +:+ Py.nl +:+ "+++ b/a.txt" +:+ Py.nl +:+
  "@@ -1 +1 @@" +:+ Py.nl +:+ "-v2" +:+ Py.nl +:+ "+v1" +:+ Py.nl.

Definition v1 : string := "v1" +:+ Py.nl.
Definition v2 : string := "v2" +:+ Py.nl.

Definition source_tree : gmap string string :=
  {[ ".allhands-manifest.json" := "{}"; "a.txt" := v2; "b.txt" := "same" ]}.

(** [diff -u]: exit 0 on equal inputs, the hunk and exit 1 on [a.txt]; on
    anything else it exits with 2, the status of diff for trouble (a file it
    cannot read, for one). *)
Definition diff (file_path source_content target_content : string) : Z * string :=
  if String.eqb source_content target_content then (0, "")
  else if String.eqb file_path "a.txt" && String.eqb source_content v2
          && String.eqb target_content v1
       then (1, hunk_a)
       else (2, "").

(** The body that [apply_patch] makes of an overlay holding [hunk_a]: the
    empty line that ends the header, then the hunk. *)
Definition body_a : string := Py.nl +:+ hunk_a.

Definition applies (patch_body : string) (t : gmap string string) : bool :=
  String.eqb patch_body body_a && bool_decide (t !! "a.txt" = Some v2).

Definition patch_check (patch_body : string) (t : gmap string string)
  : Z * string * string :=
  if applies patch_body t then (0, "checking file a.txt" +:+ Py.nl, "")
  else (1, "", "patch: **** malformed patch or failed hunk").

Definition patch_apply (patch_body : string) (t : gmap string string)
  : Z * string * string * gmap string string :=
  if applies patch_body t
  then (0, "patching file a.txt" +:+ Py.nl, "", <["a.txt" := v1]> t)
  else (1, "", "patch: **** malformed patch or failed hunk", t).

(** The setting, up to the staged-path query, the revision query, the
    managed paths and the date. *)
Definition env (staged : Z * string) (rev : Z * string * string)
    (managed : list string) (day : string) : Env :=
  {| source := source_tree;
     git_dir := true;
     distributable := managed;
     git_staged := staged;
     git_rev_parse := rev;
     today := day;
     diff_tool := diff;
     patch_dry_run := patch_check;
     patch_run := patch_apply;
     answer := "n" |}.

Definition rev_ok : Z * string * string :=
  (0, "abc1234def5678abc1234def5678abc1234def56" +:+ Py.nl, "").

Definition env0 : Env := env (0, "") rev_ok ["a.txt"; "b.txt"] "2024-05-02".

Definition overlay (day : string) : string :=
  PatchHeader.to_string (mkPatchHeader "abc1234" day) +:+ hunk_a.

(** A target with the customized [a.txt] and the overlay of an earlier run. *)
Definition tree0 : gmap string string :=
  {[ "a.txt" := v1; "b.txt" := "same"; ".allhands.patch" := overlay "2024-05-01" ]}.

Definition world0 : World := {| target := tree0; trace := [] |}.

(** [a.txt] is staged in the target. *)
Definition env_staged : Env :=
  env (0, "a.txt" +:+ Py.nl) rev_ok ["a.txt"; "b.txt"] "2024-05-02".

(** The staged-path query fails (exit code 128). *)
Definition env_staged_fails : Env :=
  env (128, "") rev_ok ["a.txt"; "b.txt"] "2024-05-02".

(** The revision query fails. *)
Definition env_rev_fails : Env :=
  env (0, "") (128, "", "fatal: not a git repository") ["a.txt"; "b.txt"]
           "2024-05-02".

(** A target whose [b.txt] differs from the source; the diff stand-in
    exits with 2 on it. *)
Definition world_b : World :=
  {| target := {[ "b.txt" := "local" ]}; trace := [] |}.

(** The overlay artifact is itself a managed path, and the source tree
    carries a file of that name. *)
Definition env_overlay_managed : Env :=
  {| source := <[".allhands.patch" := "# upstream notes" +:+ Py.nl]> source_tree;
     git_dir := true;
     distributable := [".allhands.patch"];
     git_staged := (0, "");
     git_rev_parse := rev_ok;
     today := "2024-05-02";
     diff_tool := diff;
     patch_dry_run := patch_check;
     patch_run := patch_apply;
     answer := "n" |}.

(** The overlay of [tree0] no longer applies: [a.txt] has moved on. *)
Definition tree_moved : gmap string string :=
  {[ "a.txt" := "v3" +:+ Py.nl; "b.txt" := "same";
     ".allhands.patch" := overlay "2024-05-01" ]}.

Definition world_moved : World := {| target := tree_moved; trace := [] |}.

(** [a.txt] is no longer managed, so the refresh leaves it alone. *)
Definition env_a_unmanaged : Env :=
  env (0, "") rev_ok ["b.txt"] "2024-05-02".


(** The world that [cmd_update env0 false] leaves from [world0]. *)
Definition world1 : World :=
  {| target := {[ "a.txt" := v1; "b.txt" := "same";
                  ".allhands.patch" := overlay "2024-05-02" ]};
     trace := [EvGitStaged; EvPatch true body_a; EvPatch false body_a;
               EvGitRevParse; EvDiff "a.txt" v2 v1] |}.

End Demo.

(** ** Further concrete settings *)

Module Cases.

(** The update is started outside a git working tree. *)
Definition env_no_git : Env :=
  {| source := Demo.source_tree;
     git_dir := false;
     distributable := ["a.txt"; "b.txt"];
     git_staged := (0, "");
     git_rev_parse := Demo.rev_ok;
     today := "2024-05-02";
     diff_tool := Demo.diff;
     patch_dry_run := Demo.patch_check;
     patch_run := Demo.patch_apply;
     answer := "n" |}.

(** A target that was never updated: a customized [a.txt], no [b.txt], a
    file of its own, and no overlay. *)
Definition tree_fresh : gmap string string :=
  {[ "a.txt" := Demo.v1; "README.md" := "mine" ]}.

Definition world_fresh : World := {| target := tree_fresh; trace := [] |}.

End Cases.

(** * Properties *)

(** ** Strings *)

Lemma append_String c s t : String c s +:+ t = String c (s +:+ t).
Proof. reflexivity. Qed.

Lemma literal_append lit s : Re.literal lit (lit +:+ s) = Some s.
Proof.
  induction lit as [|a lit IH]; simpl; [done|].
  by rewrite Ascii.eqb_refl.
Qed.

Lemma greedy_stop p g c rest :
  Py.all_chars p g = true → p c = false →
  Re.greedy p (g +:+ String c rest) = g.
Proof.
  intros Hg Hc. induction g as [|a g IH]; simpl in *.
  - by rewrite Hc.
  - apply andb_prop in Hg as [-> Hg]. by rewrite IH.
Qed.

Lemma greedy_all p g : Py.all_chars p (Re.greedy p g) = true.
Proof.
  induction g as [|a g IH]; simpl; [done|].
  destruct (p a) eqn:Ha; simpl; [by rewrite Ha|done].
Qed.

Lemma search_from_skip m g rest :
  Py.all_chars Re.is_dot g = true →
  Re.search_from m false (g +:+ rest) = Re.search_from m false rest.
Proof.
  induction g as [|a g IH]; simpl; [done|].
  intros [Ha Hg]%andb_prop. unfold Re.is_dot in Ha.
  apply negb_true_iff in Ha. rewrite Ha. by apply IH.
Qed.

Lemma is_hex_is_dot c : Re.is_hex c = true → Re.is_dot c = true.
Proof. destruct c as [[] [] [] [] [] [] [] []]; vm_compute; congruence. Qed.

Lemma all_hex_all_dot s :
  Py.all_chars Re.is_hex s = true → Py.all_chars Re.is_dot s = true.
Proof.
  induction s as [|a s IH]; simpl; [done|].
  intros [Ha Hs]%andb_prop. by rewrite (is_hex_is_dot _ Ha), IH.
Qed.

Lemma truthy_true s : Py.truthy s = true ↔ s ≠ "".
Proof. destruct s; simpl; split; congruence. Qed.

Lemma truthy_false s : Py.truthy s = false ↔ s = "".
Proof. destruct s; simpl; split; congruence. Qed.

Lemma append_assoc' (a b c : string) : (a +:+ b) +:+ c = a +:+ b +:+ c.
Proof. induction a as [|x a IH]; [done|]. rewrite !append_String. by f_equal. Qed.

Lemma append_empty_r (a : string) : a +:+ "" = a.
Proof. induction a as [|x a IH]; [done|]. rewrite append_String. by f_equal. Qed.

Lemma all_chars_append p a b :
  Py.all_chars p (a +:+ b) = Py.all_chars p a && Py.all_chars p b.
Proof.
  induction a as [|x a IH]; simpl; [done|]. by rewrite IH, andb_assoc.
Qed.

Lemma greedy_cut p v c rest :
  p c = false → Re.greedy p (v +:+ String c rest) = Re.greedy p v.
Proof.
  intros Hc. induction v as [|a v IH]; simpl.
  - by rewrite Hc.
  - destruct (p a); [by rewrite IH|done].
Qed.

(** ** The header codec *)

Lemma search_from_true m s :
  Re.search_from m true s =
  match m s with Some g => Some g | None => Re.search_from m false s end.
Proof. destruct s; simpl; by destruct (m _). Qed.

(** Searching a text whose first line is [line]: either the pattern
    matches at its start, or the search goes on after it. *)
Lemma search_line m line rest :
  Py.all_chars Re.is_dot line = true →
  Re.search m (line +:+ Py.nl +:+ rest) =
  match m (line +:+ Py.nl +:+ rest) with
  | Some g => Some g
  | None => Re.search m rest
  end.
Proof.
  intros Hline. unfold Re.search. rewrite search_from_true.
  destruct (m _); [done|].
  rewrite search_from_skip by done.
  by change (Py.nl +:+ rest) with (String Py.LF rest).
Qed.

Lemma base_at_base_line v rest :
  Re.base_at (Re.base_prefix +:+ v +:+ Py.nl +:+ rest) =
  if Py.truthy (Re.greedy Re.is_hex v) then Some (Re.greedy Re.is_hex v) else None.
Proof.
  unfold Re.base_at.
  rewrite literal_append. cbv zeta. unfold Py.nl.
  rewrite append_String, greedy_cut; done.
Qed.

Lemma generated_at_generated_line g rest :
  Py.all_chars Re.is_dot g = true →
  Re.generated_at (Re.generated_prefix +:+ g +:+ Py.nl +:+ rest) =
  if Py.truthy g then Some g else None.
Proof.
  intros Hg. unfold Re.generated_at.
  rewrite literal_append. cbv zeta. unfold Py.nl.
  rewrite append_String, greedy_stop; done.
Qed.

Lemma generated_at_base_line s : Re.generated_at (Re.base_prefix +:+ s) = None.
Proof. reflexivity. Qed.

Lemma base_at_generated_line s : Re.base_at (Re.generated_prefix +:+ s) = None.
Proof. reflexivity. Qed.

(** The text after the generated line of [to_string] holds no header line. *)
Lemma search_generated_tail g :
  Py.all_chars Re.is_dot g = true →
  Re.search Re.generated_at (Re.generated_prefix +:+ g +:+ Py.nl +:+ Py.nl) =
  if Py.truthy g then Some g else None.
Proof.
  intros Hg.
  rewrite <- (append_assoc' Re.generated_prefix g), search_line.
  2:{ rewrite all_chars_append. by rewrite Hg. }
  rewrite append_assoc', generated_at_generated_line by done.
  by destruct (Py.truthy g).
Qed.

Lemma search_base_tail g :
  Py.all_chars Re.is_dot g = true →
  Re.search Re.base_at (Re.generated_prefix +:+ g +:+ Py.nl +:+ Py.nl) = None.
Proof.
  intros Hg.
  rewrite <- (append_assoc' Re.generated_prefix g), search_line.
  2:{ rewrite all_chars_append. by rewrite Hg. }
  by rewrite append_assoc', base_at_generated_line.
Qed.

(** What [parse] makes of a text that starts with a base-commit line
    carrying the value [v]. *)
Lemma parse_base_line v rest :
  Py.all_chars Re.is_dot v = true →
  PatchHeader.parse (Re.base_prefix +:+ v +:+ Py.nl +:+ rest) =
  if Py.truthy (Re.greedy Re.is_hex v) then
    Some {| base_commit := Re.greedy Re.is_hex v;
            generated := default "" (Re.search Re.generated_at rest) |}
  else PatchHeader.parse rest.
Proof.
  intros Hv. unfold PatchHeader.parse.
  assert (Hline : Py.all_chars Re.is_dot (Re.base_prefix +:+ v) = true).
  { rewrite all_chars_append. by rewrite Hv. }
  rewrite <- !(append_assoc' Re.base_prefix v).
  rewrite !search_line by done.
  rewrite !append_assoc', base_at_base_line, generated_at_base_line.
  destruct (Py.truthy _); [|done].
  by destruct (Re.search Re.generated_at rest).
Qed.

Lemma greedy_id p s : Py.all_chars p s = true → Re.greedy p s = s.
Proof.
  induction s as [|a s IH]; simpl; [done|].
  intros [-> Hs]%andb_prop. by rewrite IH.
Qed.

Lemma parse_to_string_gen v g :
  Py.all_chars Re.is_dot v = true → Py.all_chars Re.is_dot g = true →
  PatchHeader.parse (PatchHeader.to_string (mkPatchHeader v g)) =
  if Py.truthy (Re.greedy Re.is_hex v)
  then Some (mkPatchHeader (Re.greedy Re.is_hex v) g)
  else None.
Proof.
  intros Hv Hg. unfold PatchHeader.to_string. simpl base_commit. simpl generated.
  rewrite parse_base_line by done.
  destruct (Py.truthy _).
  - rewrite search_generated_tail by done. by destruct g.
  - unfold PatchHeader.parse. by rewrite search_base_tail.
Qed.

(** C2, as amended: a header whose [base_commit] is a non-empty run of
    [[a-f0-9]] and whose [generated] holds no line feed survives
    [to_string] followed by [parse]. *)
Theorem parse_to_string_round_trip (h : PatchHeader) :
  base_commit h ≠ "" →
  Py.all_chars Re.is_hex (base_commit h) = true →
  Py.all_chars Re.is_dot (generated h) = true →
  PatchHeader.parse (PatchHeader.to_string h) = Some h.
Proof.
  destruct h as [b g]. simpl. intros Hne Hb Hg.
  rewrite parse_to_string_gen by auto using all_hex_all_dot.
  rewrite greedy_id by done.
  by apply truthy_true in Hne as ->.
Qed.

Lemma parse_to_string_round_trip_witness :
  let h := mkPatchHeader "abc1234" "2024-05-01" in
  base_commit h ≠ "" ∧
  Py.all_chars Re.is_hex (base_commit h) = true ∧
  Py.all_chars Re.is_dot (generated h) = true ∧
  PatchHeader.parse (PatchHeader.to_string h) = Some h.
Proof.
  intros h. split_and!; [done | reflexivity | reflexivity |].
  apply (parse_to_string_round_trip h); [done | reflexivity | reflexivity].
Defined.

(** C2, as stated, fails: a branch name is a non-empty [base_commit] that
    [to_string] writes and [parse] does not read back. *)
Lemma round_trip_fails_on_ref_name :
  let h := mkPatchHeader "HEAD" "2024-05-01" in
  base_commit h ≠ "" ∧ PatchHeader.parse (PatchHeader.to_string h) ≠ Some h.
Proof. split; [done|]. vm_compute. congruence. Qed.




(** ** Blank texts and lines *)

Lemma rstrip_empty s : Py.rstrip s = "" ↔ Py.all_chars Py.isspace s = true.
Proof.
  induction s as [|c s IH]; simpl; [done|].
  destruct (Py.rstrip s) eqn:Hr.
  - destruct (Py.isspace c); simpl; [|done].
    split; [intros _; by apply IH | done].
  - split; [done|]. intros [_ Hs]%andb_prop. by apply IH in Hs.
Qed.

Lemma lstrip_empty s : Py.lstrip s = "" ↔ Py.all_chars Py.isspace s = true.
Proof.
  induction s as [|c s IH]; simpl; [done|].
  destruct (Py.isspace c); simpl; [done|]. split; discriminate.
Qed.

Lemma lstrip_all_space s : Py.all_chars Py.isspace (Py.lstrip s) = true → Py.lstrip s = "".
Proof.
  induction s as [|c s IH]; simpl; [done|].
  destruct (Py.isspace c) eqn:Hc; [done|]. simpl. by rewrite Hc.
Qed.

(** [not s.strip()] holds exactly for the texts made of white space. *)
Lemma strip_empty s : Py.strip s = "" ↔ Py.all_chars Py.isspace s = true.
Proof.
  unfold Py.strip. rewrite rstrip_empty. split.
  - intros H. by apply lstrip_empty, lstrip_all_space.
  - intros H. apply lstrip_empty in H. by rewrite H.
Qed.

Lemma strip_hash s : Py.strip (String "#" s) ≠ "".
Proof.
  unfold Py.strip. simpl. by destruct (Py.rstrip s).
Qed.

Lemma startswith_hash l : Py.startswith "#" l = true → ∃ l', l = String "#" l'.
Proof.
  destruct l as [|c l]; cbn [Py.startswith]; [done|].
  rewrite andb_true_r. intros ->%Ascii.eqb_eq. eauto.
Qed.

Lemma split_no_LF s : Py.all_chars Re.is_dot s = true → Py.split Py.LF s = [s].
Proof.
  induction s as [|c s IH]; simpl; [done|].
  intros [Hc Hs]%andb_prop. unfold Re.is_dot in Hc.
  apply negb_true_iff in Hc. rewrite Hc, IH; done.
Qed.

Lemma split_line s t :
  Py.all_chars Re.is_dot s = true →
  Py.split Py.LF (s +:+ Py.nl +:+ t) = s :: Py.split Py.LF t.
Proof.
  induction s as [|c s IH]; intros Hs.
  - by change ("" +:+ Py.nl +:+ t) with (String Py.LF t).
  - simpl in Hs. apply andb_prop in Hs as [Hc Hs].
    unfold Re.is_dot in Hc. apply negb_true_iff in Hc.
    rewrite append_String. simpl. by rewrite Hc, IH.
Qed.

(** [split] undoes [join] on lines without line feed, with or without a
    final line feed. *)
Lemma split_join lines tail :
  lines ≠ [] →
  Forall (λ l, Py.all_chars Re.is_dot l = true) lines →
  tail = "" ∨ tail = Py.nl →
  Py.split Py.LF (Py.join Py.nl lines +:+ tail) =
  (lines ++ (if Py.truthy tail then [""] else []))%list.
Proof.
  intros Hne Hall Htail. induction Hall as [|l ls Hl Hls IH]; [done|].
  destruct ls as [|l' ls].
  - simpl Py.join. destruct Htail as [-> | ->].
    + rewrite append_empty_r, split_no_LF; done.
    + rewrite <- (append_empty_r Py.nl) at 1.
      rewrite split_line by done. done.
  - change (Py.join Py.nl (l :: l' :: ls)) with
      (l +:+ Py.nl +:+ Py.join Py.nl (l' :: ls)).
    rewrite !append_assoc', split_line by done.
    by rewrite IH.
Qed.

Lemma join_all_space lines :
  Forall (λ l, Py.all_chars Py.isspace l = true) lines →
  Py.all_chars Py.isspace (Py.join Py.nl lines) = true.
Proof.
  induction 1 as [|l ls Hl Hls IH]; [done|].
  destruct ls as [|l' ls]; [done|].
  change (Py.join Py.nl (l :: l' :: ls)) with
    (l +:+ Py.nl +:+ Py.join Py.nl (l' :: ls)).
  by rewrite !all_chars_append, Hl, IH.
Qed.

Lemma filter_comments_all_space (ls : list string) :
  Forall (λ l, Py.startswith "#" l = true ∨ Py.all_chars Py.isspace l = true) ls →
  Forall (λ l, Py.all_chars Py.isspace l = true)
         (List.filter (λ line, negb (Py.startswith "#" line)) ls).
Proof.
  induction 1 as [|l ls Hl Hls IH]; cbn [List.filter]; [done|].
  destruct (Py.startswith "#" l) eqn:Hs; cbn [negb]; [done|].
  constructor; [|done]. destruct Hl; congruence.
Qed.

(** A text whose lines are comments or white space has a blank body. *)
Lemma patch_body_blank text :
  Forall (λ l, Py.startswith "#" l = true ∨ Py.all_chars Py.isspace l = true)
         (Py.split Py.LF text) →
  Py.strip (patch_body_of text) = "".
Proof.
  intros Hall. by apply strip_empty, join_all_space, filter_comments_all_space.
Qed.

(** ** The concrete setting at work *)

Example demo_update :
  cmd_update Demo.env0 false Demo.world0 =
  (Ok 0,
   {| target := {[ "a.txt" := Demo.v1; "b.txt" := "same";
                   ".allhands.patch" := Demo.overlay "2024-05-02" ]};
      trace := [EvGitStaged; EvPatch true Demo.body_a; EvPatch false Demo.body_a;
                EvGitRevParse; EvDiff "a.txt" Demo.v2 Demo.v1] |}).
Proof. vm_compute. reflexivity. Qed.

(** ** The overlay store *)


(** ** The applier on texts with nothing to apply *)

Lemma apply_patch_blank E text dry_run w :
  Py.strip text = "" →
  apply_patch E text dry_run w = (Ok (true, "No patch to apply"), w).
Proof. intros H. unfold apply_patch. by rewrite H. Qed.

Lemma apply_patch_comments E text dry_run w :
  Py.strip text ≠ "" → Py.strip (patch_body_of text) = "" →
  apply_patch E text dry_run w =
  (Ok (true, "No patch to apply (comments only)"), w).
Proof.
  intros H1 H2. unfold apply_patch.
  apply truthy_true in H1. by rewrite H1, H2.
Qed.

Lemma join_hash_nonblank lines tail :
  lines ≠ [] → Forall (λ l, Py.startswith "#" l = true) lines →
  Py.strip (Py.join Py.nl lines +:+ tail) ≠ "".
Proof.
  intros Hne Hall. destruct Hall as [|l ls Hl Hls]; [done|].
  apply startswith_hash in Hl as [l' ->].
  destruct ls; cbn [Py.join]; rewrite !append_String; apply strip_hash.
Qed.

(** C3, as amended: a blank text succeeds with the message
    "No patch to apply"; a text made only of lines that start with [#]
    (with or without a final line feed) succeeds with the message
    "No patch to apply (comments only)"; in both cases the patch tool is not
    run and the target tree is as it was. *)
Theorem apply_patch_nothing_to_apply (E : Env) (dry_run : bool) (w : World)
    (blank : string) (lines : list string) (tail : string) :
  Py.strip blank = "" →
  lines ≠ [] →
  Forall (λ l, Py.startswith "#" l = true ∧ Py.all_chars Re.is_dot l = true) lines →
  tail = "" ∨ tail = Py.nl →
  apply_patch E blank dry_run w = (Ok (true, "No patch to apply"), w)
  ∧ apply_patch E (Py.join Py.nl lines +:+ tail) dry_run w =
    (Ok (true, "No patch to apply (comments only)"), w).
Proof.
  intros Hblank Hne Hall Htail. split; [by apply apply_patch_blank|].
  apply apply_patch_comments.
  - apply join_hash_nonblank; [done|]. eapply Forall_impl; [done|]. by intros ? [].
  - apply patch_body_blank. rewrite split_join; [|done| |done].
    2:{ eapply Forall_impl; [done|]. by intros ? []. }
    apply Forall_app. split.
    + eapply Forall_impl; [done|]. intros ? []. by left.
    + destruct (Py.truthy tail); [|constructor].
      apply Forall_cons. split; [by right | constructor].
Qed.

Lemma apply_patch_nothing_to_apply_witness :
  let text := "# claude-all-hands base: abc1234" +:+ Py.nl +:+ "# generated: 2024-05-01" +:+ Py.nl in
  apply_patch Demo.env0 (" " +:+ Py.nl) true Demo.world0
    = (Ok (true, "No patch to apply"), Demo.world0)
  ∧ apply_patch Demo.env0 text true Demo.world0
    = (Ok (true, "No patch to apply (comments only)"), Demo.world0).
Proof.
  exact (apply_patch_nothing_to_apply Demo.env0 true Demo.world0 (" " +:+ Py.nl)
           ["# claude-all-hands base: abc1234"; "# generated: 2024-05-01"] Py.nl
           eq_refl ltac:(done)
           ltac:(repeat constructor) ltac:(by right)).
Defined.

(** C3, as stated, fails: on a text of comment lines the message is not
    "No patch to apply". *)
Lemma apply_patch_comment_message :
  apply_patch Demo.env0 "# local notes" false Demo.world0
    = (Ok (true, "No patch to apply (comments only)"), Demo.world0)
  ∧ "No patch to apply (comments only)" ≠ "No patch to apply".
Proof. split; [reflexivity | done]. Qed.

(** ** The orchestrator: the conflict check *)

(** C1: when a staged path is a managed path, [cmd_update] returns 1, the
    target tree is what it was, and the only process that may have run is
    the staged-path query. *)
Theorem staged_conflict_aborts (E : Env) (auto_yes : bool) (w : World) :
  staged_of (git_staged E) ∩ list_to_set (distributable E) ≠ ∅ →
  ∃ w', cmd_update E auto_yes w = (Ok 1, w')
        ∧ target w' = target w
        ∧ (trace w' = trace w ∨ trace w' = (trace w ++ [EvGitStaged])%list).
Proof.
  intros Hconf. unfold cmd_update.
  destruct (git_dir E); simpl; [|by eexists; split_and!; [done..|left]].
  destruct (bool_decide (is_Some _)); simpl; [|by eexists; split_and!; [done..|left]].
  unfold bind, get_staged_files, log, ret. simpl.
  rewrite bool_decide_false by done. simpl.
  eexists; split_and!; [done..|by right].
Qed.

Lemma staged_conflict_aborts_witness :
  staged_of (git_staged Demo.env_staged)
    ∩ list_to_set (distributable Demo.env_staged) ≠ ∅
  ∧ ∃ w', cmd_update Demo.env_staged false Demo.world0 = (Ok 1, w')
          ∧ target w' = target Demo.world0
          ∧ (trace w' = trace Demo.world0
             ∨ trace w' = (trace Demo.world0 ++ [EvGitStaged])%list).
Proof.
  assert (H : staged_of (git_staged Demo.env_staged)
                ∩ list_to_set (distributable Demo.env_staged) ≠ ∅).
  { apply (non_empty_inhabited_L "a.txt").
    refine (bool_decide_unpack _ _). vm_compute. exact I. }
  split; [exact H|].
  exact (staged_conflict_aborts Demo.env_staged false Demo.world0 H).
Defined.

(** ** The staged-path query *)

(** C4, as amended: a staged-path query that exits non-zero raises nothing:
    [get_staged_files] answers the empty set, the conflict check passes, and
    an update whose two preconditions hold goes on with the refresh as if
    nothing were staged. *)
Theorem staged_query_failure_is_ignored (E : Env) (auto_yes : bool) (w : World) :
  (git_staged E).1 ≠ 0 →
  git_dir E = true →
  is_Some (source E !! manifest_file) →
  let w1 := {| target := target w; trace := trace w ++ [EvGitStaged] |} in
  get_staged_files E w = (Ok ∅, w1)
  ∧ cmd_update E auto_yes w = update_body E auto_yes w1.
Proof.
  intros Hrc Hgit Hman w1.
  assert (Hst : staged_of (git_staged E) = ∅).
  { unfold staged_of. destruct (git_staged E) as [rc out]. simpl in Hrc.
    by apply Z.eqb_neq in Hrc as ->. }
  split.
  - unfold get_staged_files, bind, log, ret. simpl. by rewrite Hst.
  - unfold cmd_update. rewrite Hgit. simpl.
    rewrite bool_decide_true by done. simpl.
    unfold bind at 1. unfold get_staged_files, bind, log, ret. simpl.
    rewrite Hst. rewrite bool_decide_true; [done|]. apply intersection_empty_l_L.
Qed.

Lemma staged_query_failure_is_ignored_witness :
  let E := Demo.env_staged_fails in
  let w1 := {| target := target Demo.world0; trace := [EvGitStaged] |} in
  (git_staged E).1 ≠ 0
  ∧ git_dir E = true
  ∧ is_Some (source E !! manifest_file)
  ∧ get_staged_files E Demo.world0 = (Ok ∅, w1)
  ∧ cmd_update E false Demo.world0 = update_body E false w1.
Proof.
  intros E w1.
  assert (H1 : (git_staged E).1 ≠ 0) by (vm_compute; congruence).
  assert (H2 : is_Some (source E !! manifest_file)).
  { refine (bool_decide_unpack _ _). vm_compute. exact I. }
  split_and!; [exact H1 | reflexivity | exact H2 | |];
    apply (staged_query_failure_is_ignored E false Demo.world0 H1 eq_refl H2).
Defined.

(** C4, as stated, fails: the staged-path query exits with 128 and the
    update runs to the end, rewrites the overlay and returns 0. *)
Lemma staged_query_failure_update_succeeds :
  (git_staged Demo.env_staged_fails).1 = 128
  ∧ ∃ w', cmd_update Demo.env_staged_fails false Demo.world0 = (Ok 0, w')
          ∧ target w' !! patch_file = Some (Demo.overlay "2024-05-02")
          ∧ target Demo.world0 !! patch_file = Some (Demo.overlay "2024-05-01").
Proof.
  split; [reflexivity|]. eexists. split_and!.
  - vm_compute. reflexivity.
  - vm_compute. reflexivity.
  - vm_compute. reflexivity.
Qed.

(** ** The generator *)

Lemma world_trace_nil w : {| target := target w; trace := trace w ++ [] |} = w.
Proof. destruct w. simpl. by rewrite app_nil_r. Qed.

(** The loop never raises, leaves the tree alone, and appends to [patches]
    the hunks of the paths, in their order. *)
Lemma generate_loop_hunks E files patches w :
  ∃ tr, generate_loop E files patches w =
        (Ok (patches ++ omap (Spec.hunk E (target w)) files),
         {| target := target w; trace := trace w ++ tr |}).
Proof.
  revert patches w. induction files as [|p files IH]; intros patches w.
  - exists []. cbn. by rewrite app_nil_r, world_trace_nil.
  - cbn [generate_loop omap list_omap]. unfold bind at 1, read_file.
    unfold Spec.hunk at 1.
    destruct (target w !! p) as [tc|] eqn:Ht; [|apply IH].
    cbv zeta. destruct (String.eqb _ tc) eqn:Heq; [apply IH|].
    unfold bind, log.
    destruct (diff_tool E p _ tc) as [rc out]. cbn [fst snd].
    destruct (rc =? 1)%Z.
    + destruct (IH (patches ++ [out])
                  {| target := target w;
                     trace := trace w ++ [EvDiff p (default "" (source E !! p)) tc] |})
        as [tr Htr].
      eexists. rewrite Htr. cbn [target trace].
      by rewrite <- !app_assoc.
    + destruct (IH patches
                  {| target := target w;
                     trace := trace w ++ [EvDiff p (default "" (source E !! p)) tc] |})
        as [tr Htr].
      eexists. rewrite Htr. cbn [target trace].
      by rewrite <- !app_assoc.
Qed.

(** C5, as amended: when the diff of a candidate file exits with 1 its
    output is kept as the hunk of the file; when it exits with any other
    code the file contributes nothing and no error is raised: the loop goes
    on with the next file and returns normally. *)
Theorem generate_loop_diff_exit_code (E : Env) (file_path : string)
    (files patches : list string) (w : World) (target_content : string) :
  target w !! file_path = Some target_content →
  default "" (source E !! file_path) ≠ target_content →
  let source_content := default "" (source E !! file_path) in
  let r := diff_tool E file_path source_content target_content in
  let w1 := {| target := target w;
               trace := trace w ++ [EvDiff file_path source_content target_content] |} in
  generate_loop E (file_path :: files) patches w =
    generate_loop E files (if (r.1 =? 1)%Z then patches ++ [r.2] else patches) w1
  ∧ ∃ ps w', generate_loop E (file_path :: files) patches w = (Ok ps, w')
             ∧ target w' = target w.
Proof.
  intros Ht Hne sc r w1. split.
  - cbn [generate_loop]. unfold bind at 1, read_file. rewrite Ht.
    fold sc. apply String.eqb_neq in Hne. fold sc in Hne. rewrite Hne.
    unfold bind, log. fold r w1. destruct r as [rc out]. cbn [fst snd].
    by destruct (rc =? 1)%Z.
  - destruct (generate_loop_hunks E (file_path :: files) patches w) as [tr ->].
    by do 2 eexists.
Qed.

Lemma generate_loop_diff_exit_code_witness :
  let E := Demo.env0 in
  let w := Demo.world_b in
  let w1 := {| target := target w; trace := [EvDiff "b.txt" "same" "local"] |} in
  target w !! "b.txt" = Some "local"
  ∧ default "" (source E !! "b.txt") ≠ "local"
  ∧ generate_loop E ["b.txt"] [] w = generate_loop E [] [] w1
  ∧ ∃ ps w', generate_loop E ["b.txt"] [] w = (Ok ps, w') ∧ target w' = target w.
Proof.
  intros E w w1.
  assert (H1 : target w !! "b.txt" = Some "local") by (vm_compute; reflexivity).
  assert (H2 : default "" (source E !! "b.txt") ≠ "local") by (vm_compute; congruence).
  split_and!; [exact H1 | exact H2 | |];
    apply (generate_loop_diff_exit_code E "b.txt" [] [] w "local" H1 H2).
Defined.

(** C5, as stated, fails: the diff tool exits with 2 on [b.txt] and
    [generate_patch] returns the empty document, not an error. *)
Lemma generate_patch_swallows_diff_error :
  (diff_tool Demo.env0 "b.txt" "same" "local").1 = 2
  ∧ generate_patch Demo.env0 ["b.txt"] Demo.world_b =
    (Ok "", {| target := target Demo.world_b;
               trace := [EvGitRevParse; EvDiff "b.txt" "same" "local"] |}).
Proof. split; vm_compute; reflexivity. Qed.

(** C7, as amended: when the revision query succeeds, [generate_patch]
    returns the document of the hunks of the given paths, in their order,
    and leaves the tree alone: the empty string when no path contributes a
    hunk, else the header (revision cut to 7 characters, date of the day)
    in front of the hunks.  A path absent from the target contributes no
    hunk, and neither does a path whose source bytes (none for a missing
    source file) and target bytes are equal. *)
Theorem generate_patch_document (E : Env) (files : list string) (w : World)
    (stdout stderr : string) :
  git_rev_parse E = (0, stdout, stderr) →
  let t := target w in
  (∃ w', generate_patch E files w =
         (Ok (Spec.document (Py.take 7 (Py.strip stdout)) (today E)
                            (omap (Spec.hunk E t) files)), w')
         ∧ target w' = t)
  ∧ (∀ p, t !! p = None → Spec.hunk E t p = None)
  ∧ (∀ p c, t !! p = Some c → default "" (source E !! p) = c →
            Spec.hunk E t p = None).
Proof.
  intros Hrev t. split_and!.
  - unfold generate_patch, get_current_commit. rewrite Hrev.
    unfold bind at 1. unfold bind at 1. unfold log. cbn [negb Z.eqb ret].
    unfold bind at 1.
    match goal with |- context [generate_loop E files [] ?w0] =>
      destruct (generate_loop_hunks E files [] w0) as [tr ->] end.
    cbn [app target]. fold t. unfold Spec.document.
    destruct (omap (Spec.hunk E t) files); by eexists.
  - intros p Hp. unfold Spec.hunk. by rewrite Hp.
  - intros p c Hp Hs. unfold Spec.hunk. rewrite Hp, Hs. cbv zeta.
    by rewrite String.eqb_refl.
Qed.

Lemma generate_patch_document_witness :
  let E := Demo.env0 in
  git_rev_parse E = Demo.rev_ok
  ∧ ∃ w', generate_patch E ["a.txt"; "b.txt"; "c.txt"] Demo.world0 =
          (Ok (Spec.document "abc1234" "2024-05-02" [Demo.hunk_a]), w')
          ∧ target w' = target Demo.world0.
Proof.
  intros E. split; [reflexivity|].
  exact (proj1 (generate_patch_document E ["a.txt"; "b.txt"; "c.txt"] Demo.world0
                  _ _ eq_refl)).
Defined.

(** C7, as stated, fails: the revision is resolved before any file is
    looked at, so with a failing revision query no document is returned,
    not even for an empty list of files. *)
Lemma generate_patch_needs_revision :
  generate_patch Demo.env_rev_fails [] Demo.world_b =
  (Raise (RuntimeError "Failed to get commit: fatal: not a git repository"),
   {| target := target Demo.world_b; trace := [EvGitRevParse] |}).
Proof. vm_compute. reflexivity. Qed.

(** ** The refresh and the deletions *)

Lemma sorted_insert_elem q p l : q ∈ PathOrder.insert p l ↔ q = p ∨ q ∈ l.
Proof.
  induction l as [|x l IH]; simpl.
  - by rewrite !elem_of_cons.
  - destruct (PathOrder.leb p x); rewrite !elem_of_cons; [done|].
    rewrite IH. tauto.
Qed.

Lemma sorted_elem q l : q ∈ PathOrder.sorted l ↔ q ∈ l.
Proof.
  induction l as [|x l IH]; simpl; [done|].
  rewrite sorted_insert_elem, elem_of_cons, IH. tauto.
Qed.

Lemma copy_all_lookup_notin E paths t q :
  q ∉ paths → Tree.copy_all E paths t !! q = t !! q.
Proof.
  revert t. induction paths as [|p paths IH]; intros t Hq; simpl; [done|].
  apply not_elem_of_cons in Hq as [Hne Hq]. rewrite IH by done.
  unfold Tree.copy_one. destruct (source E !! p); [|done].
  by rewrite lookup_insert_ne.
Qed.

Lemma delete_paths_lookup_notin fs t q :
  q ∉ fs → Tree.delete_paths fs t !! q = t !! q.
Proof.
  revert t. induction fs as [|f fs IH]; intros t Hq; simpl; [done|].
  apply not_elem_of_cons in Hq as [Hne Hq]. rewrite IH by done.
  by rewrite lookup_delete_ne.
Qed.

Lemma removed_elem E t paths q : q ∈ Tree.removed E t paths → q ∈ paths.
Proof.
  unfold Tree.removed. rewrite !list_elem_of_In, filter_In. tauto.
Qed.

(** The removed-upstream paths do not depend on the copies made so far. *)
Lemma removed_insert E t paths p s :
  source E !! p = Some s →
  Tree.removed E (<[p := s]> t) paths = Tree.removed E t paths.
Proof.
  intros Hp. unfold Tree.removed. apply filter_ext. intros q.
  destruct (decide (p = q)) as [<-|Hne].
  - rewrite Hp. by rewrite (bool_decide_false (Some s = None)).
  - by rewrite lookup_insert_ne.
Qed.

Lemma refresh_run E paths deleted w :
  refresh E paths deleted w =
  (Ok (deleted ++ Tree.removed E (target w) paths),
   {| target := Tree.copy_all E paths (target w); trace := trace w |}).
Proof.
  revert deleted w. induction paths as [|p paths IH]; intros deleted [t tr].
  - cbn. by rewrite app_nil_r.
  - cbn [refresh Tree.removed List.filter Tree.copy_all foldl target trace].
    unfold bind at 1, read_file. cbn [target trace].
    unfold Tree.copy_one at 2.
    destruct (source E !! p) as [s|] eqn:Hs.
    + rewrite (bool_decide_false (Some s = None)) by done. cbn [andb].
      assert (Hw : ∀ d, (write_file p s ;; refresh E paths d) {| target := t; trace := tr |}
                = (Ok (d ++ Tree.removed E t paths),
                   {| target := Tree.copy_all E paths (<[p := s]> t); trace := tr |})).
      { intros d. unfold bind, write_file. cbn [target trace]. rewrite IH.
        cbn [target trace]. by rewrite removed_insert. }
      destruct (t !! p) as [tb|] eqn:Ht; [|apply Hw].
      destruct (String.eqb s tb) eqn:Heq; cbn [negb]; [|apply Hw].
      apply String.eqb_eq in Heq as <-.
      rewrite IH. cbn [target trace]. by rewrite (insert_id t p s).
    + rewrite (bool_decide_true (None = None)) by done. cbn [andb].
      destruct (t !! p) as [tb|] eqn:Ht.
      * rewrite (bool_decide_true (is_Some _)) by eauto.
        rewrite IH. cbn [target trace]. by rewrite <- app_assoc.
      * rewrite (bool_decide_false (is_Some _)) by (by intros [? [=]]).
        by rewrite IH.
Qed.

Lemma delete_all_run fs w :
  delete_all fs w =
  (Ok tt, {| target := Tree.delete_paths fs (target w); trace := trace w |}).
Proof.
  revert w. induction fs as [|f fs IH]; intros [t tr]; [done|].
  cbn [delete_all Tree.delete_paths foldl target trace].
  unfold bind at 1, read_file. cbn [target trace].
  destruct (t !! f) eqn:Ht.
  - unfold bind, unlink. cbn [target trace]. by rewrite IH.
  - rewrite IH. cbn [target trace]. by rewrite (delete_id t f).
Qed.

Lemma handle_deleted_run E auto_yes t paths w :
  ∃ tr, handle_deleted E auto_yes (Tree.removed E t paths) w =
        (Ok tt,
         {| target := if Tree.confirms E auto_yes
                      then Tree.delete_paths (Tree.removed E t paths) (target w)
                      else target w;
            trace := trace w ++ tr |}).
Proof.
  unfold handle_deleted.
  destruct (Tree.removed E t paths) as [|f fs] eqn:Hrem.
  - exists []. unfold ret. cbn. rewrite app_nil_r.
    destruct w. by destruct (Tree.confirms E auto_yes).
  - unfold bind at 1. unfold confirmed, Tree.confirms.
    destruct auto_yes; cbn [orb].
    + exists []. unfold ret. rewrite delete_all_run. by rewrite app_nil_r.
    + exists [EvInput]. unfold bind, log, ret. cbn [target trace].
      destruct (String.eqb _ _); [by rewrite delete_all_run|done].
Qed.

(** The copy loop followed by the deletions computes [Tree.refreshed]. *)
Lemma refresh_phase_run E auto_yes (k : M Z) w :
  ∃ tr,
    (let* deleted_in_source := refresh E (PathOrder.sorted (distributable E)) [] in
     handle_deleted E auto_yes deleted_in_source ;; k) w =
    k {| target := Tree.refreshed E auto_yes (target w); trace := trace w ++ tr |}.
Proof.
  unfold bind at 1. rewrite refresh_run. cbn [app].
  unfold bind.
  destruct (handle_deleted_run E auto_yes (target w)
              (PathOrder.sorted (distributable E))
              {| target := Tree.copy_all E (PathOrder.sorted (distributable E)) (target w);
                 trace := trace w |}) as [tr ->].
  exists tr. by unfold Tree.refreshed.
Qed.

Lemma refreshed_lookup_unmanaged E auto_yes t q :
  q ∉ distributable E → Tree.refreshed E auto_yes t !! q = t !! q.
Proof.
  intros Hq. unfold Tree.refreshed.
  assert (Hs : q ∉ PathOrder.sorted (distributable E)) by by rewrite sorted_elem.
  destruct (Tree.confirms E auto_yes).
  - rewrite delete_paths_lookup_notin, copy_all_lookup_notin; [done..|].
    intros Hin. by apply removed_elem in Hin.
  - by rewrite copy_all_lookup_notin.
Qed.

(** ** The overlay reapplication *)

Lemma read_patch_file_run w :
  read_patch_file w = (Ok (default "" (target w !! patch_file)), w).
Proof.
  unfold read_patch_file, bind, read_file, ret.
  by destruct (target w !! patch_file).
Qed.

Lemma get_patch_base_commit_run w :
  ∃ base, get_patch_base_commit w = (Ok base, w).
Proof.
  unfold get_patch_base_commit, bind. rewrite read_patch_file_run.
  destruct (Py.truthy _); [|by eexists].
  destruct (PatchHeader.parse _); by eexists.
Qed.

(** [apply_patch] never raises, and what it returns and does to the tree
    does not depend on the interactions before it. *)
Lemma apply_patch_trace E content dry_run t tr :
  ∃ r t' tr',
    apply_patch E content dry_run {| target := t; trace := [] |} =
      (Ok r, {| target := t'; trace := tr' |})
    ∧ apply_patch E content dry_run {| target := t; trace := tr |} =
      (Ok r, {| target := t'; trace := tr ++ tr' |})
    ∧ (dry_run = true → t' = t).
Proof.
  unfold apply_patch.
  destruct (Py.truthy (Py.strip content)); cbn [negb].
  2:{ do 2 eexists. exists []. rewrite app_nil_r.
      split_and!; [reflexivity..|done]. }
  destruct (Py.truthy (Py.strip (patch_body_of content))); cbn [negb].
  2:{ do 2 eexists. exists []. rewrite app_nil_r.
      split_and!; [reflexivity..|done]. }
  unfold run_patch, bind, log, ret. cbv beta iota zeta. cbn [target trace app].
  destruct dry_run.
  - destruct (patch_dry_run E (patch_body_of content) t) as [[rc out] err].
    destruct (rc =? 0)%Z; do 3 eexists; (split_and!; [reflexivity..|done]).
  - destruct (patch_run E (patch_body_of content) t) as [[[rc out] err] t'].
    destruct (rc =? 0)%Z; do 3 eexists; (split_and!; [reflexivity..|done]).
Qed.

(** The body of the update up to the reapplication. *)
Lemma update_body_run E auto_yes w :
  ∃ tr, update_body E auto_yes w =
        reapply E (default "" (target w !! patch_file))
          {| target := Tree.refreshed E auto_yes (target w);
             trace := trace w ++ tr |}.
Proof.
  unfold update_body. unfold bind at 1. rewrite read_patch_file_run.
  unfold bind at 1.
  destruct (get_patch_base_commit_run w) as [base ->].
  apply refresh_phase_run.
Qed.

(** C6, as amended: provided the overlay artifact is not itself a managed
    path, when the stored overlay is not blank and its dry-run application to
    the refreshed tree fails, [cmd_update] returns 1, the artifact holds what
    it held before the call, and the tree is the refreshed tree (or the
    initial one when a check fails before the refresh). *)
Theorem dry_run_failure_keeps_overlay (E : Env) (auto_yes : bool) (w : World)
    (existing message : string) :
  patch_file ∉ distributable E →
  target w !! patch_file = Some existing →
  Py.strip existing ≠ "" →
  (apply_patch E existing true
     {| target := Tree.refreshed E auto_yes (target w); trace := [] |}).1
    = Ok (false, message) →
  ∃ w', cmd_update E auto_yes w = (Ok 1, w')
        ∧ target w' !! patch_file = Some existing
        ∧ (target w' = target w ∨ target w' = Tree.refreshed E auto_yes (target w)).
Proof.
  intros Hun Hex Hnb Hdry. unfold cmd_update.
  destruct (git_dir E); cbn [negb]; [|by eexists; split_and!; [..|left]].
  destruct (bool_decide (is_Some _)); cbn [negb]; [|by eexists; split_and!; [..|left]].
  unfold bind at 1. unfold get_staged_files, bind at 1, log, ret.
  destruct (bool_decide (_ = ∅)); cbn [negb]; [|by eexists; split_and!; [..|left]].
  match goal with |- context [update_body E auto_yes ?w0] =>
    destruct (update_body_run E auto_yes w0) as [tr ->] end.
  cbn [target trace]. rewrite Hex. cbn [default from_option id].
  unfold reapply. apply truthy_true in Hnb. rewrite Hnb.
  destruct (apply_patch_trace E existing true (Tree.refreshed E auto_yes (target w))
              ((trace w ++ [EvGitStaged]) ++ tr)) as (r & t' & tr' & H0 & H1 & Ht').
  rewrite H0 in Hdry. cbn [fst] in Hdry. injection Hdry as ->.
  unfold bind. rewrite H1. rewrite (Ht' eq_refl).
  eexists. split_and!; [done| |by right].
  cbn [target]. by rewrite refreshed_lookup_unmanaged.
Qed.

Lemma dry_run_failure_keeps_overlay_witness :
  let E := Demo.env_a_unmanaged in
  let w := Demo.world_moved in
  let existing := Demo.overlay "2024-05-01" in
  (patch_file ∉ distributable E)
  ∧ target w !! patch_file = Some existing
  ∧ Py.strip existing ≠ ""
  ∧ ∃ w', cmd_update E false w = (Ok 1, w')
          ∧ target w' !! patch_file = Some existing
          ∧ (target w' = target w ∨ target w' = Tree.refreshed E false (target w)).
Proof.
  intros E w existing.
  assert (H1 : patch_file ∉ distributable E).
  { refine (bool_decide_unpack _ _). vm_compute. exact I. }
  assert (H2 : target w !! patch_file = Some existing) by (vm_compute; reflexivity).
  assert (H3 : Py.strip existing ≠ "") by (vm_compute; congruence).
  split_and!; [exact H1 | exact H2 | exact H3 |].
  refine (dry_run_failure_keeps_overlay E false w existing
            ("Patch failed:" +:+ Py.nl +:+ "" +:+ Py.nl +:+
             "patch: **** malformed patch or failed hunk") H1 H2 H3 _).
  vm_compute. reflexivity.
Defined.

(** C6, as stated, fails: with the overlay artifact among the managed
    paths, the refresh overwrites it with the file of the source tree before
    the dry run fails. *)
Lemma dry_run_failure_after_overlay_overwritten :
  let E := Demo.env_overlay_managed in
  let w := Demo.world0 in
  target w !! patch_file = Some (Demo.overlay "2024-05-01")
  ∧ Py.strip (Demo.overlay "2024-05-01") ≠ ""
  ∧ (∃ message,
       (apply_patch E (Demo.overlay "2024-05-01") true
          {| target := Tree.refreshed E false (target w); trace := [] |}).1
       = Ok (false, message))
  ∧ ∃ w', cmd_update E false w = (Ok 1, w')
          ∧ target w' !! patch_file = Some ("# upstream notes" +:+ Py.nl).
Proof.
  intros E w. split_and!.
  - vm_compute. reflexivity.
  - vm_compute. congruence.
  - eexists. vm_compute. reflexivity.
  - eexists. split; vm_compute; reflexivity.
Qed.

(** ** The overlay regeneration *)

Lemma write_patch_file_run content w :
  write_patch_file content w =
  (Ok tt, {| target := Tree.store content (target w); trace := trace w |}).
Proof.
  unfold write_patch_file, Tree.store.
  destruct (Py.truthy (Py.strip content)); [done|].
  unfold bind, read_file, unlink, ret.
  destruct (target w !! patch_file) eqn:Hf; [done|].
  rewrite (delete_id _ _ Hf). by destruct w.
Qed.

Lemma generate_patch_run E files w rc stdout stderr :
  git_rev_parse E = (rc, stdout, stderr) →
  ∃ tr,
    generate_patch E files w =
    (if (rc =? 0)%Z
     then Ok (Spec.document (Py.take 7 (Py.strip stdout)) (today E)
                            (omap (Spec.hunk E (target w)) files))
     else Raise (RuntimeError ("Failed to get commit: " +:+ stderr)),
     {| target := target w; trace := trace w ++ tr |}).
Proof.
  intros Hrev. unfold generate_patch, get_current_commit. rewrite Hrev.
  unfold bind at 1. unfold bind at 1. unfold log.
  destruct (rc =? 0)%Z; cbn [negb].
  - unfold ret at 1. unfold bind at 1.
    match goal with |- context [generate_loop E files [] ?w0] =>
      destruct (generate_loop_hunks E files [] w0) as [tr ->] end.
    cbn [app target trace]. unfold Spec.document.
    eexists. rewrite <- app_assoc.
    destruct (omap (Spec.hunk E (target w)) files); reflexivity.
  - by eexists.
Qed.

(** [regenerate] either returns 0, with the new overlay stored, or raises
    because the revision query failed while some file had changed. *)
Lemma regenerate_run E w rc stdout stderr :
  git_rev_parse E = (rc, stdout, stderr) →
  ∃ tr,
    regenerate E w =
    (if bool_decide (changed_in E (target w) = []) || (rc =? 0)%Z
     then Ok 0
     else Raise (RuntimeError ("Failed to get commit: " +:+ stderr)),
     {| target := if bool_decide (changed_in E (target w) = []) || (rc =? 0)%Z
                  then Tree.store (Tree.new_overlay E stdout (target w)) (target w)
                  else target w;
        trace := trace w ++ tr |}).
Proof.
  intros Hrev. unfold regenerate, Tree.new_overlay. unfold bind at 1.
  destruct (changed_in E (target w)) as [|p ch] eqn:Hch.
  - exists []. rewrite app_nil_r.
    unfold bind. by rewrite write_patch_file_run.
  - rewrite bool_decide_false by done. cbn [orb].
    unfold bind at 1.
    destruct (generate_patch_run E (p :: ch) w _ _ _ Hrev) as [tr ->].
    exists tr. destruct (rc =? 0)%Z; [|done].
    unfold bind. by rewrite write_patch_file_run.
Qed.






(** ** Two updates in a row *)

Lemma reapply_ok_inv E existing w w1 :
  reapply E existing w = (Ok 0, w1) → ∃ wp, regenerate E wp = (Ok 0, w1).
Proof.
  unfold reapply. destruct (Py.truthy _); [|by eexists].
  destruct w as [t tr].
  destruct (apply_patch_trace E existing true t tr)
    as ([ok msg] & t' & tr' & _ & H1 & _).
  unfold bind at 1. rewrite H1. destruct ok; [|done].
  destruct (apply_patch_trace E existing false t' (tr ++ tr'))
    as ([ok2 msg2] & t2 & tr2 & _ & H2 & _).
  unfold bind. rewrite H2. by eexists.
Qed.

Lemma cmd_update_ok_inv E auto_yes w w1 :
  cmd_update E auto_yes w = (Ok 0, w1) →
  git_dir E = true
  ∧ is_Some (source E !! manifest_file)
  ∧ staged_of (git_staged E) ∩ list_to_set (distributable E) = ∅
  ∧ update_body E auto_yes
      {| target := target w; trace := trace w ++ [EvGitStaged] |} = (Ok 0, w1).
Proof.
  unfold cmd_update.
  destruct (git_dir E); cbn [negb]; [|done].
  destruct (bool_decide (is_Some _)) eqn:Hm; cbn [negb]; [|done].
  apply bool_decide_eq_true in Hm.
  unfold bind at 1. unfold get_staged_files, bind at 1, log, ret.
  destruct (bool_decide (_ = ∅)) eqn:Hc; cbn [negb]; [|done].
  apply bool_decide_eq_true in Hc. done.
Qed.




(** ** The primitives on sample inputs *)

Example split_trailing_line_feed :
  Py.split Py.LF ("a" +:+ Py.nl +:+ "b" +:+ Py.nl) = ["a"; "b"; ""].
Proof. reflexivity. Qed.

Example split_empty : Py.split Py.LF "" = [""].
Proof. reflexivity. Qed.

Example strip_both_sides : Py.strip ("  a b " +:+ Py.nl) = "a b".
Proof. reflexivity. Qed.

Example staged_of_two_paths :
  elements (staged_of (0, "a.txt" +:+ Py.nl +:+ "docs/b.md" +:+ Py.nl))
  ≡ₚ ["a.txt"; "docs/b.md"].
Proof. vm_compute. by apply Permutation_refl || apply perm_swap. Qed.

Example sorted_by_components :
  PathOrder.sorted ["b/x"; "a.b"; "a/b"] = ["a/b"; "a.b"; "b/x"].
Proof. reflexivity. Qed.

Example take_short_revision :
  Py.take 7 (Py.strip ("abc1234def5678" +:+ Py.nl)) = "abc1234".
Proof. reflexivity. Qed.

Example parse_serialized_header :
  PatchHeader.parse (Demo.overlay "2024-05-01")
  = Some (mkPatchHeader "abc1234" "2024-05-01").
Proof. reflexivity. Qed.

Example parse_without_generated_line :
  PatchHeader.parse ("# claude-all-hands base: 0a1b2c3" +:+ Py.nl +:+ "--- a/x")
  = Some (mkPatchHeader "0a1b2c3" "").
Proof. reflexivity. Qed.

Example parse_header_not_on_first_line :
  PatchHeader.parse ("notes" +:+ Py.nl +:+ "# claude-all-hands base: 0a1b2c3")
  = Some (mkPatchHeader "0a1b2c3" "").
Proof. reflexivity. Qed.

Example parse_not_at_line_start :
  PatchHeader.parse ("  # claude-all-hands base: 0a1b2c3") = None.
Proof. reflexivity. Qed.

Example body_of_overlay :
  patch_body_of (Demo.overlay "2024-05-01") = Demo.body_a.
Proof. reflexivity. Qed.

(** In any state, [read_patch_file] returns the empty string exactly when
    the artifact is missing or empty. *)
Lemma read_patch_file_empty_iff (w : World) :
  (read_patch_file w).1 = Ok ""
  ↔ target w !! patch_file = None ∨ target w !! patch_file = Some "".
Proof.
  rewrite read_patch_file_run. cbn [fst].
  destruct (target w !! patch_file) as [c|]; cbn; split.
  - intros [= ->]. by right.
  - by intros [[=] | [= ->]].
  - by left.
  - done.
Qed.

(** * Further properties of the code *)

(** ** PatchHeader: what [parse] returns *)

Lemma search_from_some m bol s g :
  Re.search_from m bol s = Some g → ∃ s', m s' = Some g.
Proof.
  revert bol. induction s as [|c s IH]; intros bol; simpl.
  - destruct bol; [|done]. destruct (m "") eqn:Hm; [|done].
    intros [= ->]. eauto.
  - destruct bol.
    + destruct (m (String c s)) eqn:Hm; [intros [= ->]; eauto | apply IH].
    + apply IH.
Qed.

Lemma base_at_some s g :
  Re.base_at s = Some g → g ≠ "" ∧ Py.all_chars Re.is_hex g = true.
Proof.
  unfold Re.base_at. destruct (Re.literal _ s) as [rest|]; [|done].
  cbv zeta. destruct (Py.truthy _) eqn:Ht; [|done].
  intros [= <-]. split; [by apply truthy_true | apply greedy_all].
Qed.

Lemma generated_at_some s g :
  Re.generated_at s = Some g → g ≠ "" ∧ Py.all_chars Re.is_dot g = true.
Proof.
  unfold Re.generated_at. destruct (Re.literal _ s) as [rest|]; [|done].
  cbv zeta. destruct (Py.truthy _) eqn:Ht; [|done].
  intros [= <-]. split; [by apply truthy_true | apply greedy_all].
Qed.

Lemma parse_some_inv content h :
  PatchHeader.parse content = Some h →
  base_commit h ≠ ""
  ∧ Py.all_chars Re.is_hex (base_commit h) = true
  ∧ Py.all_chars Re.is_dot (generated h) = true.
Proof.
  unfold PatchHeader.parse.
  destruct (Re.search Re.base_at content) as [b|] eqn:Hb; [|done].
  intros [= <-]. cbn [base_commit generated].
  apply search_from_some in Hb as [s Hs]. apply base_at_some in Hs as [? ?].
  split_and!; [done..|].
  destruct (Re.search Re.generated_at content) as [g|] eqn:Hg; [|done].
  apply search_from_some in Hg as [s' Hs']. by apply generated_at_some in Hs' as [? ?].
Qed.

(** X1: a header that [parse] returns has a non-empty [base_commit] made of
    characters of [[a-f0-9]], and a [generated] value without line feed. *)
Theorem parse_result_well_formed (content : string) (h : PatchHeader) :
  PatchHeader.parse content = Some h →
  base_commit h ≠ ""
  ∧ Py.all_chars Re.is_hex (base_commit h) = true
  ∧ Py.all_chars Re.is_dot (generated h) = true.
Proof.
  intros Hp. unfold PatchHeader.parse in Hp.
  destruct (Re.search Re.base_at content) as [b|] eqn:Hb; [|done].
  injection Hp as <-. cbn [base_commit generated].
  apply search_from_some in Hb as [s Hs].
  destruct (base_at_some s b Hs) as [Hne Hhex].
  split_and!; [exact Hne | exact Hhex |].
  destruct (Re.search Re.generated_at content) as [g|] eqn:Hg; [|done].
  apply search_from_some in Hg as [s' Hs'].
  by destruct (generated_at_some s' g Hs').
Qed.

Lemma parse_result_well_formed_witness :
  let h := mkPatchHeader "abc1234" "2024-05-01" in
  PatchHeader.parse (Demo.overlay "2024-05-01") = Some h
  ∧ base_commit h ≠ ""
  ∧ Py.all_chars Re.is_hex (base_commit h) = true
  ∧ Py.all_chars Re.is_dot (generated h) = true.
Proof.
  intros h. split; [reflexivity|].
  exact (parse_result_well_formed (Demo.overlay "2024-05-01") h eq_refl).
Defined.

(** X2: what [parse] returns is stable: serializing a parsed header and
    parsing it again gives the same header. *)
Theorem parse_to_string_parse (content : string) (h : PatchHeader) :
  PatchHeader.parse content = Some h →
  PatchHeader.parse (PatchHeader.to_string h) = Some h.
Proof.
  intros Hp. destruct (parse_some_inv content h Hp) as (Hne & Hhex & Hdot).
  destruct h as [b g]. cbn [base_commit generated] in *.
  rewrite parse_to_string_gen by auto using all_hex_all_dot.
  rewrite greedy_id by done. by apply truthy_true in Hne as ->.
Qed.

Lemma parse_to_string_parse_witness :
  let content := "notes" +:+ Py.nl +:+ "# claude-all-hands base: 0a1b2c3XYZ" in
  PatchHeader.parse content = Some (mkPatchHeader "0a1b2c3" "")
  ∧ PatchHeader.parse (PatchHeader.to_string (mkPatchHeader "0a1b2c3" ""))
    = Some (mkPatchHeader "0a1b2c3" "").
Proof.
  intros content. split; [reflexivity|].
  exact (parse_to_string_parse content (mkPatchHeader "0a1b2c3" "") eq_refl).
Defined.

Lemma literal_hash_none lit line rest :
  Py.startswith "#" line = false →
  Re.literal (String "#" lit) (line +:+ Py.nl +:+ rest) = None.
Proof.
  destruct line as [|c line].
  - intros _. reflexivity.
  - cbn [Py.startswith]. rewrite andb_true_r. intros Hc.
    rewrite append_String. cbn [Re.literal]. by rewrite Hc.
Qed.

(** X3: a line that does not start with [#] (a line of a diff hunk, for
    one) is invisible to [parse]: the header is looked for in the lines that
    follow. *)
Theorem parse_skips_other_lines (line rest : string) :
  Py.all_chars Re.is_dot line = true →
  Py.startswith "#" line = false →
  PatchHeader.parse (line +:+ Py.nl +:+ rest) = PatchHeader.parse rest.
Proof.
  intros Hdot Hst. unfold PatchHeader.parse.
  rewrite !search_line by done.
  unfold Re.base_at, Re.generated_at.
  change Re.base_prefix with (String "#" " claude-all-hands base: ").
  change Re.generated_prefix with (String "#" " generated: ").
  by rewrite !literal_hash_none.
Qed.

Lemma parse_skips_other_lines_witness :
  PatchHeader.parse ("--- a/a.txt" +:+ Py.nl +:+ Demo.overlay "2024-05-01")
  = PatchHeader.parse (Demo.overlay "2024-05-01").
Proof.
  exact (parse_skips_other_lines "--- a/a.txt" (Demo.overlay "2024-05-01")
           eq_refl eq_refl).
Defined.

(** X4: [to_string] emits two lines and an empty line: split at line feeds,
    its text is the base-commit line, the generated line and two empty
    pieces. *)
Theorem to_string_lines (h : PatchHeader) :
  Py.all_chars Re.is_dot (base_commit h) = true →
  Py.all_chars Re.is_dot (generated h) = true →
  Py.split Py.LF (PatchHeader.to_string h) =
  [Re.base_prefix +:+ base_commit h; Re.generated_prefix +:+ generated h; ""; ""].
Proof.
  intros Hb Hg. unfold PatchHeader.to_string.
  rewrite <- (append_assoc' Re.base_prefix), split_line.
  2:{ rewrite all_chars_append. by rewrite Hb. }
  rewrite <- (append_assoc' Re.generated_prefix), split_line.
  2:{ rewrite all_chars_append. by rewrite Hg. }
  reflexivity.
Qed.

Lemma to_string_lines_witness :
  Py.split Py.LF (PatchHeader.to_string (mkPatchHeader "abc1234" "2024-05-01")) =
  ["# claude-all-hands base: abc1234"; "# generated: 2024-05-01"; ""; ""].
Proof.
  exact (to_string_lines (mkPatchHeader "abc1234" "2024-05-01") eq_refl eq_refl).
Defined.

(** X5: the header can be read back from a whole patch document: whatever
    follows the serialized header, [parse] returns that header, for a
    [base_commit] of [[a-f0-9]] characters and a dated [generated] line. *)
Theorem parse_document_header (h : PatchHeader) (body : string) :
  base_commit h ≠ "" →
  Py.all_chars Re.is_hex (base_commit h) = true →
  generated h ≠ "" →
  Py.all_chars Re.is_dot (generated h) = true →
  PatchHeader.parse (PatchHeader.to_string h +:+ body) = Some h.
Proof.
  destruct h as [b g]. cbn [base_commit generated].
  intros Hb Hhex Hg Hdot. unfold PatchHeader.to_string.
  cbn [base_commit generated]. rewrite !append_assoc'.
  rewrite parse_base_line by by apply all_hex_all_dot.
  rewrite greedy_id by done. apply truthy_true in Hb as ->.
  rewrite <- (append_assoc' Re.generated_prefix g), search_line.
  2:{ rewrite all_chars_append. by rewrite Hdot. }
  rewrite append_assoc', generated_at_generated_line by done.
  by apply truthy_true in Hg as ->.
Qed.

Lemma parse_document_header_witness :
  let h := mkPatchHeader "abc1234" "2024-05-01" in
  PatchHeader.parse (PatchHeader.to_string h +:+ Demo.hunk_a) = Some h.
Proof.
  intros h.
  exact (parse_document_header h Demo.hunk_a ltac:(done) eq_refl ltac:(done) eq_refl).
Defined.

(** ** apply_patch: the body handed to the patch tool *)

Lemma split_cons sep s : ∃ l ls, Py.split sep s = l :: ls.
Proof.
  induction s as [|c s (l & ls & IH)]; simpl; [by eexists _, _|].
  destruct (Ascii.eqb c sep); [by eexists _, _|]. rewrite IH. by eexists _, _.
Qed.

Lemma split_all_dot s :
  Forall (λ l, Py.all_chars Re.is_dot l = true) (Py.split Py.LF s).
Proof.
  induction s as [|c s IH]; cbn [Py.split]; [by repeat constructor|].
  destruct (Ascii.eqb c Py.LF) eqn:Hc; [by constructor|].
  destruct (split_cons Py.LF s) as (l & ls & Hs). rewrite Hs in IH |- *.
  apply Forall_cons in IH as [Hl Hls]. constructor; [|done].
  cbn [Py.all_chars]. unfold Re.is_dot at 1. by rewrite Hc, Hl.
Qed.

Lemma filter_idemp {A} (f : A → bool) (l : list A) :
  List.filter f (List.filter f l) = List.filter f l.
Proof.
  induction l as [|x l IH]; cbn [List.filter]; [done|].
  destruct (f x) eqn:Hx; [|done]. cbn [List.filter]. by rewrite Hx, IH.
Qed.

Lemma filter_Forall {A} (P : A → Prop) (f : A → bool) (l : list A) :
  Forall P l → Forall P (List.filter f l).
Proof.
  induction 1 as [|x l Hx Hl IH]; cbn [List.filter]; [done|].
  destruct (f x); [by constructor|done].
Qed.

Lemma filter_Forall_true {A} (f : A → bool) (l : list A) :
  Forall (λ x, f x = true) (List.filter f l).
Proof.
  induction l as [|x l IH]; cbn [List.filter]; [done|].
  destruct (f x) eqn:Hx; [by constructor|done].
Qed.

(** The lines of the body are the lines of the text that are no comments;
    a text of comments only has the empty body. *)
Lemma patch_body_lines text :
  Py.split Py.LF (patch_body_of text) =
  match List.filter (λ line, negb (Py.startswith "#" line)) (Py.split Py.LF text) with
  | [] => [""]
  | kept => kept
  end.
Proof.
  unfold patch_body_of.
  pose proof (filter_Forall _ (λ line, negb (Py.startswith "#" line)) _
                (split_all_dot text)) as Hdot.
  destruct (List.filter _ (Py.split Py.LF text)) as [|l ls] eqn:Hf; [done|].
  rewrite <- (append_empty_r (Py.join Py.nl (l :: ls))).
  rewrite split_join; [|done|done|by left]. by rewrite app_nil_r.
Qed.

(** X6: no line of the text handed to the patch tool starts with [#]. *)
Theorem patch_body_has_no_comment_line (text line : string) :
  line ∈ Py.split Py.LF (patch_body_of text) →
  Py.startswith "#" line = false.
Proof.
  rewrite patch_body_lines.
  pose proof (filter_Forall_true (λ line, negb (Py.startswith "#" line))
                (Py.split Py.LF text)) as Hall.
  destruct (List.filter _ (Py.split Py.LF text)) as [|l ls].
  - by intros ->%list_elem_of_singleton.
  - intros Hin. rewrite Forall_forall in Hall.
    by apply negb_true_iff, Hall.
Qed.

Lemma patch_body_has_no_comment_line_witness :
  "+v1" ∈ Py.split Py.LF (patch_body_of (Demo.overlay "2024-05-01"))
  ∧ Py.startswith "#" "+v1" = false.
Proof.
  assert (H : "+v1" ∈ Py.split Py.LF (patch_body_of (Demo.overlay "2024-05-01"))).
  { refine (bool_decide_unpack _ _). vm_compute. exact I. }
  split; [exact H|].
  exact (patch_body_has_no_comment_line _ _ H).
Defined.

(** X7: stripping the comment lines twice is stripping them once. *)
Theorem patch_body_of_idempotent (text : string) :
  patch_body_of (patch_body_of text) = patch_body_of text.
Proof.
  unfold patch_body_of at 1. rewrite patch_body_lines.
  destruct (List.filter _ (Py.split Py.LF text)) as [|l ls] eqn:Hf.
  - unfold patch_body_of. by rewrite Hf.
  - rewrite <- Hf, filter_idemp. done.
Qed.


(** ** get_current_commit *)

Lemma take_length n s : (String.length (Py.take n s) ≤ n)%nat.
Proof.
  revert s. induction n as [|n IH]; intros [|c s]; cbn; try lia.
  specialize (IH s). lia.
Qed.

Lemma take_prefix n s : ∃ rest, s = Py.take n s +:+ rest.
Proof.
  revert s. induction n as [|n IH]; intros [|c s]; cbn [Py.take]; try by eexists.
  destruct (IH s) as [rest Hr]. exists rest. rewrite append_String. by f_equal.
Qed.

(** X9: [get_current_commit] returns a prefix of at most 7 characters of the
    stripped output of git when git exits with 0, and raises [RuntimeError]
    with git's stderr otherwise; it never touches the tree. *)
Theorem get_current_commit_short (E : Env) (w : World) :
  let '(returncode, stdout, stderr) := git_rev_parse E in
  let w' := {| target := target w; trace := trace w ++ [EvGitRevParse] |} in
  if (returncode =? 0)%Z then
    ∃ r rest, get_current_commit E w = (Ok r, w')
              ∧ (String.length r ≤ 7)%nat
              ∧ Py.strip stdout = r +:+ rest
  else
    get_current_commit E w =
    (Raise (RuntimeError ("Failed to get commit: " +:+ stderr)), w').
Proof.
  unfold get_current_commit.
  destruct (git_rev_parse E) as [[rc out] err].
  unfold bind, log, raise, ret.
  destruct (rc =? 0)%Z; cbn [negb]; [|done].
  destruct (take_prefix 7 (Py.strip out)) as [rest Hr].
  eexists _, rest. split_and!; [done|apply take_length|done].
Qed.

(** ** The overlay store and the header together *)

Lemma to_string_hash h : ∃ s, PatchHeader.to_string h = String "#" s.
Proof. by eexists. Qed.

(** X10: a patch document written by [write_patch_file] gives its base
    commit back: after the write, [get_patch_base_commit] returns the
    [base_commit] of the header the document starts with, and leaves the
    world as the write left it. *)
Theorem stored_base_commit_read_back (h : PatchHeader) (body : string) (w : World) :
  base_commit h ≠ "" →
  Py.all_chars Re.is_hex (base_commit h) = true →
  let w' := (write_patch_file (PatchHeader.to_string h +:+ body) w).2 in
  get_patch_base_commit w' = (Ok (Some (base_commit h)), w').
Proof.
  intros Hne Hhex. cbv zeta. rewrite write_patch_file_run. cbn [snd].
  destruct (to_string_hash h) as [s Hs].
  unfold Tree.store. rewrite Hs, append_String.
  pose proof (strip_hash (s +:+ body)) as Hnb. apply truthy_true in Hnb as ->.
  unfold get_patch_base_commit, bind. rewrite read_patch_file_run.
  cbn [target]. rewrite lookup_insert_eq. cbn [default from_option id Py.truthy].
  rewrite <- append_String, <- Hs. unfold PatchHeader.to_string.
  rewrite !append_assoc', parse_base_line by by apply all_hex_all_dot.
  rewrite greedy_id by done. by apply truthy_true in Hne as ->.
Qed.

Lemma stored_base_commit_read_back_witness :
  let h := mkPatchHeader "abc1234" "2024-05-01" in
  let w' := (write_patch_file (PatchHeader.to_string h +:+ Demo.hunk_a) Demo.world_b).2 in
  get_patch_base_commit w' = (Ok (Some "abc1234"), w').
Proof.
  intros h.
  exact (stored_base_commit_read_back h Demo.hunk_a Demo.world_b ltac:(done) eq_refl).
Defined.

(** ** get_staged_files: the output of git as a set *)

Lemma lstrip_keep c s :
  Py.isspace c = false → Py.lstrip (String c s) = String c s.
Proof. intros Hc. cbn [Py.lstrip]. by rewrite Hc. Qed.

Lemma rstrip_app_space s t :
  Py.all_chars Py.isspace t = true → Py.rstrip (s +:+ t) = Py.rstrip s.
Proof.
  intros Ht. induction s as [|c s IH].
  - by apply rstrip_empty.
  - rewrite append_String. cbn [Py.rstrip]. by rewrite IH.
Qed.

Lemma rstrip_app_keep a b :
  Py.rstrip b ≠ "" → Py.rstrip (a +:+ b) = a +:+ Py.rstrip b.
Proof.
  intros Hb. induction a as [|c a IH]; [done|].
  rewrite !append_String. cbn [Py.rstrip]. rewrite IH.
  destruct (a +:+ Py.rstrip b) eqn:Hab; [|done].
  destruct a; [|done]. by destruct Hb.
Qed.

Lemma rstrip_no_space s :
  Py.all_chars (λ c, negb (Py.isspace c)) s = true → Py.rstrip s = s.
Proof.
  induction s as [|c s IH]; [done|]. cbn [Py.all_chars Py.rstrip].
  intros [Hc Hs]%andb_prop. rewrite IH by done.
  apply negb_true_iff in Hc. rewrite Hc. by destruct s.
Qed.

Lemma no_space_all_dot s :
  Py.all_chars (λ c, negb (Py.isspace c)) s = true →
  Py.all_chars Re.is_dot s = true.
Proof.
  induction s as [|c s IH]; [done|]. cbn [Py.all_chars].
  intros [Hc Hs]%andb_prop. rewrite IH by done. rewrite andb_true_r.
  unfold Re.is_dot. destruct (Ascii.eqb c Py.LF) eqn:Heq; [|done].
  apply Ascii.eqb_eq in Heq as ->. done.
Qed.

(** The listing of names without white space, one per line, is its own
    [strip]. *)
Lemma strip_join_names names :
  names ≠ [] →
  Forall (λ n, n ≠ "" ∧ Py.all_chars (λ c, negb (Py.isspace c)) n = true) names →
  Py.strip (Py.join Py.nl names +:+ Py.nl) = Py.join Py.nl names
  ∧ Py.join Py.nl names ≠ "".
Proof.
  intros Hne Hall.
  assert (Hr : Py.rstrip (Py.join Py.nl names) = Py.join Py.nl names
               ∧ Py.join Py.nl names ≠ "").
  { induction Hall as [|n ns [Hn Hsp] Hns IH]; [done|].
    destruct ns as [|n' ns].
    - cbn [Py.join]. by rewrite rstrip_no_space.
    - change (Py.join Py.nl (n :: n' :: ns)) with
        (n +:+ Py.nl +:+ Py.join Py.nl (n' :: ns)).
      destruct IH as [IH1 IH2]; [done|].
      rewrite <- append_assoc', rstrip_app_keep by by rewrite IH1.
      rewrite IH1. split; [done|]. by destruct n. }
  destruct Hr as [Hr1 Hr2]. split; [|done].
  unfold Py.strip.
  destruct Hall as [|n ns [Hn Hsp] Hns]; [done|].
  destruct n as [|c n]; [done|].
  cbn [Py.all_chars] in Hsp. apply andb_prop in Hsp as [Hc _].
  apply negb_true_iff in Hc.
  assert (Hj : ∃ r, Py.join Py.nl (String c n :: ns) = String c r).
  { destruct ns; cbn [Py.join]; rewrite ?append_String; by eexists. }
  destruct Hj as [r Hj]. rewrite Hj in Hr1 |- *.
  rewrite append_String, lstrip_keep by done. rewrite <- append_String.
  by rewrite rstrip_app_space.
Qed.

(** X11: [get_staged_files] reads the names that git prints one per line:
    for names without white space the staged set is the set of these names;
    a blank output gives the empty set, not the set of the empty name. *)
Theorem staged_of_listing (names : list string) (blank : string) :
  names ≠ [] →
  Forall (λ n, n ≠ "" ∧ Py.all_chars (λ c, negb (Py.isspace c)) n = true) names →
  Py.strip blank = "" →
  staged_of (0, Py.join Py.nl names +:+ Py.nl) = list_to_set names
  ∧ staged_of (0, blank) = ∅.
Proof.
  intros Hne Hall Hblank. unfold staged_of. cbn [Z.eqb negb].
  rewrite Hblank. split; [|done].
  destruct (strip_join_names names Hne Hall) as [-> Hj].
  apply truthy_true in Hj as Ht. rewrite Ht.
  rewrite <- (append_empty_r (Py.join Py.nl names)).
  rewrite split_join; [|done| |by left].
  - by rewrite app_nil_r.
  - eapply Forall_impl; [done|]. intros n [_ Hn]. by apply no_space_all_dot.
Qed.

Lemma staged_of_listing_witness :
  staged_of (0, "a.txt" +:+ Py.nl +:+ "docs/b.md" +:+ Py.nl)
    = list_to_set ["a.txt"; "docs/b.md"]
  ∧ staged_of (0, " " +:+ Py.nl) = ∅.
Proof.
  exact (staged_of_listing ["a.txt"; "docs/b.md"] (" " +:+ Py.nl)
           ltac:(done) ltac:(repeat constructor; done) eq_refl).
Defined.

(** ** sorted: the order of the copy loop *)





(** ** The copy loop *)

Lemma copy_all_lookup E paths t q :
  Tree.copy_all E paths t !! q =
  if bool_decide (q ∈ paths)
  then match source E !! q with Some s => Some s | None => t !! q end
  else t !! q.
Proof.
  revert t. induction paths as [|p paths IH]; intros t; [done|].
  cbn [Tree.copy_all foldl]. fold (Tree.copy_all E paths (Tree.copy_one E t p)).
  rewrite IH. unfold Tree.copy_one.
  destruct (decide (q = p)) as [->|Hne].
  - rewrite (bool_decide_true (p ∈ p :: paths)) by apply list_elem_of_here.
    destruct (source E !! p) as [s|] eqn:Hs.
    + by rewrite lookup_insert_eq, Tauto.if_same.
    + by rewrite Tauto.if_same.
  - assert (Hl : (match source E !! p with
                  | Some s => <[p := s]> t | None => t end) !! q = t !! q).
    { destruct (source E !! p); [by rewrite lookup_insert_ne|done]. }
    rewrite Hl.
    destruct (decide (q ∈ paths)) as [Hin|Hnin].
    + rewrite !bool_decide_true; [done|by apply list_elem_of_further|done].
    + rewrite !bool_decide_false; [done| |done].
      by intros [?|?]%elem_of_cons.
Qed.

(** X13: the copy loop makes the target equal to the source on every path
    it is given that the source has, leaves every other path as it was, runs
    no process, and reports in [deleted_in_source] exactly the given paths
    that the source lacks and the target has. *)
Theorem refresh_effect (E : Env) (paths : list string) (w : World) :
  ∃ deleted w',
    refresh E paths [] w = (Ok deleted, w')
    ∧ trace w' = trace w
    ∧ (∀ q, target w' !! q =
            if bool_decide (q ∈ paths)
            then match source E !! q with
                 | Some s => Some s
                 | None => target w !! q
                 end
            else target w !! q)
    ∧ (∀ q, q ∈ deleted ↔
            q ∈ paths ∧ source E !! q = None ∧ is_Some (target w !! q)).
Proof.
  rewrite refresh_run. do 2 eexists. split_and!; [done|done| |].
  - intros q. cbn [target]. apply copy_all_lookup.
  - intros q. cbn [app]. unfold Tree.removed.
    rewrite !list_elem_of_In, filter_In, andb_true_iff.
    by rewrite !bool_decide_eq_true.
Qed.

Lemma copy_all_idemp E paths t :
  Tree.copy_all E paths (Tree.copy_all E paths t) = Tree.copy_all E paths t.
Proof.
  apply map_eq. intros q. rewrite !copy_all_lookup.
  destruct (bool_decide (q ∈ paths)); [|done]. by destruct (source E !! q).
Qed.

Lemma removed_copy_all E paths t :
  Tree.removed E (Tree.copy_all E paths t) paths = Tree.removed E t paths.
Proof.
  unfold Tree.removed. apply filter_ext. intros q. rewrite copy_all_lookup.
  destruct (source E !! q) eqn:Hs.
  - by rewrite (bool_decide_false (Some _ = None)).
  - by rewrite Tauto.if_same.
Qed.

(** X14: the copy loop is idempotent: run again on the world it left, it
    returns the same list and changes nothing. *)
Theorem refresh_idempotent (E : Env) (paths : list string) (w : World) :
  let r := refresh E paths [] w in
  refresh E paths [] r.2 = r.
Proof.
  cbv zeta. rewrite !refresh_run. cbn [snd target trace app].
  by rewrite copy_all_idemp, removed_copy_all.
Qed.

(** ** The deletions *)

Lemma lower_char_y c :
  Py.lower_char c = "y"%char ↔ c = "y"%char ∨ c = "Y"%char.
Proof.
  destruct c as [[] [] [] [] [] [] [] []]; vm_compute;
    (split; [intros [=]; auto | intros [[=]|[=]]; auto]).
Qed.

Lemma lower_y s : Py.lower s = "y" ↔ s = "y" ∨ s = "Y".
Proof.
  destruct s as [|c [|c' s]]; cbn [Py.lower].
  - split; [done|by intros [|]].
  - split.
    + intros [= Hc]. apply lower_char_y in Hc as [-> | ->]; auto.
    + intros [[= ->] | [= ->]]; reflexivity.
  - split; [done|by intros [|]].
Qed.

(** X15: the deletions are confirmed exactly when [auto_yes] is set or the
    answer typed, white space aside, is [y] or [Y]; the prompt is shown
    exactly when [auto_yes] is not set; the tree is not touched. *)
Theorem confirmed_answer (E : Env) (auto_yes : bool) (w : World) :
  ∃ yes,
    confirmed E auto_yes w =
      (Ok yes, {| target := target w;
                  trace := if auto_yes then trace w else trace w ++ [EvInput] |})
    ∧ (yes = true ↔
       auto_yes = true ∨ Py.strip (answer E) = "y" ∨ Py.strip (answer E) = "Y").
Proof.
  unfold confirmed. destruct auto_yes.
  - exists true. split; [by destruct w|]. split; auto.
  - eexists. split; [reflexivity|].
    rewrite String.eqb_eq, lower_y. split; [auto|]. by intros [|].
Qed.

Lemma delete_paths_lookup fs t q :
  Tree.delete_paths fs t !! q = if bool_decide (q ∈ fs) then None else t !! q.
Proof.
  revert t. induction fs as [|f fs IH]; intros t; [done|].
  cbn [Tree.delete_paths foldl]. fold (Tree.delete_paths fs (delete f t)).
  rewrite IH. destruct (decide (q = f)) as [->|Hne].
  - rewrite (bool_decide_true (f ∈ f :: fs)) by apply list_elem_of_here.
    by rewrite lookup_delete_eq, Tauto.if_same.
  - rewrite lookup_delete_ne by done.
    destruct (decide (q ∈ fs)) as [Hin|Hnin].
    + rewrite !bool_decide_true; [done|by apply list_elem_of_further|done].
    + rewrite !bool_decide_false; [done| |done].
      by intros [?|?]%elem_of_cons.
Qed.

Lemma handle_deleted_any E auto_yes ds w :
  ∃ tr, handle_deleted E auto_yes ds w =
        (Ok tt,
         {| target := if Tree.confirms E auto_yes
                      then Tree.delete_paths ds (target w)
                      else target w;
            trace := trace w ++ tr |})
        ∧ (tr = [] ∨ tr = [EvInput] ∧ auto_yes = false ∧ ds ≠ []).
Proof.
  unfold handle_deleted. destruct ds as [|f fs].
  - exists []. unfold ret. cbn. rewrite app_nil_r.
    split; [|by left]. destruct w. by destruct (Tree.confirms E auto_yes).
  - unfold bind at 1. unfold confirmed, Tree.confirms.
    destruct auto_yes; cbn [orb].
    + exists []. unfold ret. rewrite delete_all_run. rewrite app_nil_r.
      split; [done|by left].
    + exists [EvInput]. unfold bind, log, ret. cbn [target trace].
      split; [|by right].
      destruct (String.eqb _ _); [by rewrite delete_all_run|done].
Qed.

(** X16: the "Handle deleted files" block removes every listed path when
    the deletions are confirmed and nothing otherwise, leaves all other
    paths alone, and shows no prompt when [auto_yes] is set or the list is
    empty. *)
Theorem handle_deleted_effect (E : Env) (auto_yes : bool) (ds : list string)
    (w : World) :
  ∃ w',
    handle_deleted E auto_yes ds w = (Ok tt, w')
    ∧ (∀ q, target w' !! q =
            if Tree.confirms E auto_yes && bool_decide (q ∈ ds)
            then None else target w !! q)
    ∧ (trace w' = trace w ∨ trace w' = (trace w ++ [EvInput])%list)
    ∧ (auto_yes = true ∨ ds = [] → trace w' = trace w).
Proof.
  destruct (handle_deleted_any E auto_yes ds w) as (tr & -> & Htr).
  eexists. split_and!; [done| | |].
  - intros q. cbn [target]. destruct (Tree.confirms E auto_yes); cbn [andb]; [|done].
    apply delete_paths_lookup.
  - cbn [trace]. destruct Htr as [-> | (-> & _)]; [left; apply app_nil_r | by right].
  - cbn [trace]. intros Hor. destruct Htr as [-> | (-> & Ha & Hds)].
    + apply app_nil_r.
    + destruct Hor; congruence.
Qed.

(** ** The orchestrator as a whole *)

(** X17: outside a git working tree, or without the manifest in the source
    tree, [cmd_update] returns 1 and does nothing at all: no process is run
    and the tree is not touched. *)
Theorem cmd_update_precondition (E : Env) (auto_yes : bool) (w : World) :
  git_dir E = false ∨ source E !! manifest_file = None →
  cmd_update E auto_yes w = (Ok 1, w).
Proof.
  intros [Hg|Hm]; unfold cmd_update.
  - by rewrite Hg.
  - destruct (git_dir E); [|done]. cbn [negb].
    rewrite bool_decide_false; [done|]. rewrite Hm. by intros [? [=]].
Qed.

Lemma cmd_update_precondition_witness :
  cmd_update Cases.env_no_git true Demo.world0 = (Ok 1, Demo.world0).
Proof.
  exact (cmd_update_precondition Cases.env_no_git true Demo.world0
           (or_introl eq_refl)).
Defined.

Lemma filter_nil_forall {A} (f : A → bool) (l : list A) :
  (∀ x, x ∈ l → f x = false) → List.filter f l = [].
Proof.
  induction l as [|x l IH]; intros H; cbn [List.filter]; [done|].
  rewrite (H x) by apply list_elem_of_here.
  apply IH. intros y Hy. apply H. by apply list_elem_of_further.
Qed.

Lemma refreshed_lookup_managed E auto_yes t p s :
  p ∈ distributable E → source E !! p = Some s →
  Tree.refreshed E auto_yes t !! p = Some s.
Proof.
  intros Hp Hs. unfold Tree.refreshed.
  assert (Hc : Tree.copy_all E (PathOrder.sorted (distributable E)) t !! p = Some s).
  { rewrite copy_all_lookup, bool_decide_true by by apply sorted_elem.
    by rewrite Hs. }
  destruct (Tree.confirms E auto_yes); [|done].
  rewrite delete_paths_lookup, bool_decide_false; [done|].
  unfold Tree.removed. rewrite list_elem_of_In, filter_In.
  intros [_ Hf]. rewrite Hs in Hf.
  by rewrite (bool_decide_false (Some s = None)) in Hf.
Qed.

(** After the refresh no managed file differs from the source. *)
Lemma refreshed_changed_nil E auto_yes t :
  changed_in E (Tree.refreshed E auto_yes t) = [].
Proof.
  unfold changed_in. apply filter_nil_forall. intros p Hp.
  destruct (source E !! p) as [s|] eqn:Hs.
  - rewrite (refreshed_lookup_managed E auto_yes t p s) by done.
    by rewrite String.eqb_refl.
  - by destruct (Tree.refreshed E auto_yes t !! p).
Qed.

Lemma update_body_run_prompt E auto_yes w :
  ∃ tr, update_body E auto_yes w =
        reapply E (default "" (target w !! patch_file))
          {| target := Tree.refreshed E auto_yes (target w);
             trace := trace w ++ tr |}
        ∧ (tr = [] ∨ tr = [EvInput]).
Proof.
  unfold update_body. unfold bind at 1. rewrite read_patch_file_run.
  unfold bind at 1.
  destruct (get_patch_base_commit_run w) as [base ->].
  unfold bind at 1. rewrite refresh_run. cbn [app]. unfold bind.
  destruct (handle_deleted_any E auto_yes
              (Tree.removed E (target w) (PathOrder.sorted (distributable E)))
              {| target := Tree.copy_all E (PathOrder.sorted (distributable E)) (target w);
                 trace := trace w |}) as (tr & -> & Htr).
  exists tr. split; [done|]. destruct Htr as [?|[? _]]; auto.
Qed.

(** X18: an update of a target that stores no overlay (none, or a blank
    one) succeeds without running diff, patch or the revision query: every
    managed path that the source has ends up equal to the source, whatever
    the target held there, the paths that are neither managed nor the
    artifact are left alone, and no artifact is left behind. *)
Theorem update_without_overlay (E : Env) (auto_yes : bool) (w : World) :
  git_dir E = true →
  is_Some (source E !! manifest_file) →
  staged_of (git_staged E) ∩ list_to_set (distributable E) = ∅ →
  Py.strip (default "" (target w !! patch_file)) = "" →
  ∃ w', cmd_update E auto_yes w = (Ok 0, w')
        ∧ target w' !! patch_file = None
        ∧ (∀ p s, p ∈ distributable E → p ≠ patch_file →
                  source E !! p = Some s → target w' !! p = Some s)
        ∧ (∀ q, q ∉ distributable E → q ≠ patch_file →
                target w' !! q = target w !! q)
        ∧ (trace w' = (trace w ++ [EvGitStaged])%list
           ∨ trace w' = (trace w ++ [EvGitStaged; EvInput])%list).
Proof.
  intros Hgit Hman Hconf Hblank. unfold cmd_update. rewrite Hgit. cbn [negb].
  rewrite bool_decide_true by done. cbn [negb].
  unfold bind at 1. unfold get_staged_files, bind at 1, log, ret.
  rewrite bool_decide_true by done. cbn [negb].
  match goal with |- context [update_body E auto_yes ?w0] =>
    destruct (update_body_run_prompt E auto_yes w0) as (tr & -> & Htr) end.
  cbn [target trace]. unfold reapply. rewrite Hblank. cbn [Py.truthy].
  unfold regenerate. unfold bind at 1. cbn [target].
  rewrite refreshed_changed_nil. unfold bind. rewrite write_patch_file_run.
  eexists. split; [reflexivity|]. cbn [target trace]. unfold Tree.store.
  cbn [Py.strip Py.lstrip Py.rstrip Py.truthy].
  split_and!.
  - apply lookup_delete_eq.
  - intros p s Hp Hne Hs. rewrite lookup_delete_ne by done.
    by apply refreshed_lookup_managed.
  - intros q Hq Hne. rewrite lookup_delete_ne by done.
    by apply refreshed_lookup_unmanaged.
  - destruct Htr as [-> | ->]; [left|right]; by rewrite <- app_assoc.
Qed.

Lemma update_without_overlay_witness :
  ∃ w', cmd_update Demo.env0 false Cases.world_fresh = (Ok 0, w')
        ∧ target w' !! patch_file = None
        ∧ target w' !! "a.txt" = Some Demo.v2
        ∧ target w' !! "README.md" = Some "mine".
Proof.
  assert (Hman : is_Some (source Demo.env0 !! manifest_file)).
  { refine (bool_decide_unpack _ _). vm_compute. exact I. }
  assert (Hconf : staged_of (git_staged Demo.env0)
                    ∩ list_to_set (distributable Demo.env0) = ∅).
  { apply intersection_empty_l_L. }
  destruct (update_without_overlay Demo.env0 false Cases.world_fresh
              eq_refl Hman Hconf eq_refl) as (w' & Hrun & Hov & Hsrc & Hoth & _).
  exists w'. split_and!; [exact Hrun | exact Hov | |].
  - apply Hsrc; [|done|reflexivity].
    refine (bool_decide_unpack _ _). vm_compute. exact I.
  - rewrite Hoth; [reflexivity| |done].
    refine (bool_decide_unpack _ _). vm_compute. exact I.
Defined.





(** ** The artifact that an update leaves *)

Lemma new_overlay_document E stdout t :
  Tree.new_overlay E stdout t =
  Spec.document (Py.take 7 (Py.strip stdout)) (today E)
                (omap (Spec.hunk E t) (changed_in E t)).
Proof. unfold Tree.new_overlay. by destruct (changed_in E t). Qed.

Lemma document_blank_iff revision day hunks :
  Py.strip (Spec.document revision day hunks) = "" ↔ hunks = [].
Proof.
  destruct hunks as [|h hs]; [done|]. unfold Spec.document.
  destruct (to_string_hash {| base_commit := revision; generated := day |})
    as [s ->].
  rewrite append_String. split; [|done]. intros H. by apply strip_hash in H.
Qed.

Lemma store_lookup_artifact content t :
  Tree.store content t !! patch_file =
  if Py.truthy (Py.strip content) then Some content else None.
Proof.
  unfold Tree.store. destruct (Py.truthy _).
  - apply lookup_insert_eq.
  - apply lookup_delete_eq.
Qed.

Lemma regenerate_ok_inv E w w1 rc stdout stderr :
  git_rev_parse E = (rc, stdout, stderr) →
  regenerate E w = (Ok 0, w1) →
  target w1 = Tree.store (Tree.new_overlay E stdout (target w)) (target w)
  ∧ (changed_in E (target w) = [] ∨ rc = 0).
Proof.
  intros Hrev Hrun. destruct (regenerate_run E w _ _ _ Hrev) as [tr Hr].
  rewrite Hr in Hrun.
  destruct (bool_decide _ || (rc =? 0)%Z) eqn:Hok; [|done].
  injection Hrun as <-. split; [done|].
  apply orb_true_iff in Hok as [Hc%bool_decide_eq_true | Hz%Z.eqb_eq]; auto.
Qed.

(** X20: after a regeneration that returns 0, the artifact exists exactly
    when some changed file yielded a hunk (changed files whose diff did not
    exit with 1 leave none), it is then the document of these hunks, and no
    other path has changed. *)
Theorem regenerate_artifact (E : Env) (w w1 : World) :
  regenerate E w = (Ok 0, w1) →
  let hunks := omap (Spec.hunk E (target w)) (changed_in E (target w)) in
  (is_Some (target w1 !! patch_file) ↔ hunks ≠ [])
  ∧ (hunks ≠ [] →
     target w1 !! patch_file =
     Some (Spec.document (Py.take 7 (Py.strip (git_rev_parse E).1.2)) (today E) hunks))
  ∧ delete patch_file (target w1) = delete patch_file (target w).
Proof.
  intros Hrun hunks.
  destruct (git_rev_parse E) as [[rc out] err] eqn:Hrev. cbn [fst snd].
  destruct (regenerate_ok_inv E w w1 _ _ _ Hrev Hrun) as [-> _].
  rewrite store_lookup_artifact, new_overlay_document. fold hunks.
  pose proof (document_blank_iff (Py.take 7 (Py.strip out)) (today E) hunks) as Hb.
  destruct (Py.truthy _) eqn:Ht.
  - apply truthy_true in Ht. split_and!.
    + split; [intros _; by rewrite <- Hb | eauto].
    + done.
    + unfold Tree.store. apply truthy_true in Ht as ->. apply delete_insert_eq.
  - apply truthy_false in Ht. split_and!.
    + split; [by intros [? [=]] | intros Hne; by apply Hb in Ht].
    + intros Hne. by apply Hb in Ht.
    + unfold Tree.store. apply truthy_false in Ht as ->. apply delete_delete_eq.
Qed.

Lemma regenerate_artifact_witness :
  let w := {| target := delete patch_file (target Demo.world1); trace := [] |} in
  ∃ w1, regenerate Demo.env0 w = (Ok 0, w1)
        ∧ target w1 !! patch_file = Some (Demo.overlay "2024-05-02").
Proof.
  intros w.
  assert (H : regenerate Demo.env0 w =
              (Ok 0, {| target := target Demo.world1;
                        trace := [EvGitRevParse; EvDiff "a.txt" Demo.v2 Demo.v1] |})).
  { vm_compute. reflexivity. }
  eexists. split; [exact H|].
  destruct (regenerate_artifact Demo.env0 w _ H) as (_ & Hdoc & _).
  apply Hdoc. vm_compute. congruence.
Defined.

Lemma cmd_update_ok_regenerate E auto_yes w w1 :
  cmd_update E auto_yes w = (Ok 0, w1) →
  ∃ wp, regenerate E wp = (Ok 0, w1).
Proof.
  intros Hrun. apply cmd_update_ok_inv in Hrun as (_ & _ & _ & Hbody).
  match type of Hbody with update_body E auto_yes ?w0 = _ =>
    destruct (update_body_run E auto_yes w0) as [tr Hb] end.
  rewrite Hb in Hbody. by apply reapply_ok_inv in Hbody.
Qed.

Lemma cmd_update_ok_artifact E auto_yes w w1 content rc stdout stderr :
  git_rev_parse E = (rc, stdout, stderr) →
  cmd_update E auto_yes w = (Ok 0, w1) →
  target w1 !! patch_file = Some content →
  rc = 0
  ∧ ∃ hunks, hunks ≠ []
      ∧ content = PatchHeader.to_string
                    {| base_commit := Py.take 7 (Py.strip stdout);
                       generated := today E |}
                  +:+ Py.join Py.nl hunks.
Proof.
  intros Hrev Hrun Hc. apply cmd_update_ok_regenerate in Hrun as [wp Hreg].
  destruct (regenerate_ok_inv E wp w1 _ _ _ Hrev Hreg) as [Ht Hrc].
  rewrite Ht, store_lookup_artifact, new_overlay_document in Hc.
  destruct (Py.truthy _) eqn:Htr; [|done]. injection Hc as <-.
  apply truthy_true in Htr. rewrite document_blank_iff in Htr.
  split.
  - destruct Hrc as [Hch|]; [|done]. rewrite Hch in Htr. by destruct Htr.
  - destruct (omap _ _) as [|h hs] eqn:Hh; [done|]. by exists (h :: hs).
Qed.

(** X21: the artifact that a successful update leaves is never blank: it
    is the header of the revision of the run (cut to 7 characters) and of
    the date of the day, followed by at least one hunk; and the revision
    query of that run succeeded. *)
Theorem cmd_update_artifact_shape (E : Env) (auto_yes : bool) (w w1 : World)
    (content : string) :
  cmd_update E auto_yes w = (Ok 0, w1) →
  target w1 !! patch_file = Some content →
  Py.strip content ≠ ""
  ∧ (git_rev_parse E).1.1 = 0
  ∧ ∃ hunks, hunks ≠ []
      ∧ content = PatchHeader.to_string
                    {| base_commit := Py.take 7 (Py.strip (git_rev_parse E).1.2);
                       generated := today E |}
                  +:+ Py.join Py.nl hunks.
Proof.
  intros Hrun Hc.
  destruct (git_rev_parse E) as [[rc out] err] eqn:Hrev. cbn [fst snd].
  destruct (cmd_update_ok_artifact E auto_yes w w1 content _ _ _ Hrev Hrun Hc)
    as (Hrc & hunks & Hne & ->).
  split_and!; [|done|by exists hunks].
  destruct (to_string_hash {| base_commit := Py.take 7 (Py.strip out);
                              generated := today E |}) as [s ->].
  rewrite append_String. apply strip_hash.
Qed.

Lemma cmd_update_artifact_shape_witness :
  cmd_update Demo.env0 false Demo.world0 = (Ok 0, Demo.world1)
  ∧ target Demo.world1 !! patch_file = Some (Demo.overlay "2024-05-02")
  ∧ Py.strip (Demo.overlay "2024-05-02") ≠ "".
Proof.
  assert (H1 : cmd_update Demo.env0 false Demo.world0 = (Ok 0, Demo.world1))
    by (vm_compute; reflexivity).
  assert (H2 : target Demo.world1 !! patch_file = Some (Demo.overlay "2024-05-02"))
    by (vm_compute; reflexivity).
  split_and!; [exact H1 | exact H2 |].
  exact (proj1 (cmd_update_artifact_shape Demo.env0 false Demo.world0 Demo.world1
                  _ H1 H2)).
Defined.

(** X22: after a successful update that leaves an artifact,
    [get_patch_base_commit] returns the revision of the run cut to 7
    characters, when git printed a revision of [[a-f0-9]] characters. *)
Theorem cmd_update_base_commit (E : Env) (auto_yes : bool) (w w1 : World) :
  cmd_update E auto_yes w = (Ok 0, w1) →
  is_Some (target w1 !! patch_file) →
  let revision := Py.take 7 (Py.strip (git_rev_parse E).1.2) in
  revision ≠ "" →
  Py.all_chars Re.is_hex revision = true →
  get_patch_base_commit w1 = (Ok (Some revision), w1).
Proof.
  intros Hrun [content Hc] revision Hne Hhex. subst revision.
  destruct (git_rev_parse E) as [[rc out] err] eqn:Hrev. cbn [fst snd] in *.
  destruct (cmd_update_ok_artifact E auto_yes w w1 content _ _ _ Hrev Hrun Hc)
    as (_ & hunks & _ & ->).
  unfold get_patch_base_commit, bind. rewrite read_patch_file_run, Hc.
  cbn [default from_option id].
  set (h := {| base_commit := Py.take 7 (Py.strip out); generated := today E |}).
  assert (Ht : Py.truthy (PatchHeader.to_string h +:+ Py.join Py.nl hunks) = true).
  { destruct (to_string_hash h) as [s ->]. by rewrite append_String. }
  rewrite Ht. subst h.
  unfold PatchHeader.to_string. cbn [base_commit generated].
  rewrite !append_assoc', parse_base_line by by apply all_hex_all_dot.
  rewrite greedy_id by done. by apply truthy_true in Hne as ->.
Qed.

Lemma cmd_update_base_commit_witness :
  cmd_update Demo.env0 false Demo.world0 = (Ok 0, Demo.world1)
  ∧ get_patch_base_commit Demo.world1 = (Ok (Some "abc1234"), Demo.world1).
Proof.
  assert (H1 : cmd_update Demo.env0 false Demo.world0 = (Ok 0, Demo.world1))
    by (vm_compute; reflexivity).
  split; [exact H1|].
  refine (cmd_update_base_commit Demo.env0 false Demo.world0 Demo.world1 H1 _ _ eq_refl).
  - refine (bool_decide_unpack _ _). vm_compute. exact I.
  - vm_compute. congruence.
Defined.

(** ** The processes that generate runs *)



(** ** More on the reapplication *)

Lemma join_cons_String c l ls :
  Py.join Py.nl (String c l :: ls) = String c (Py.join Py.nl (l :: ls)).
Proof. by destruct ls. Qed.

Lemma join_split s : Py.join Py.nl (Py.split Py.LF s) = s.
Proof.
  induction s as [|c s IH]; [done|]. cbn [Py.split].
  destruct (split_cons Py.LF s) as (l & ls & Hs). rewrite Hs in IH |- *.
  destruct (Ascii.eqb c Py.LF) eqn:Hc.
  - apply Ascii.eqb_eq in Hc as ->.
    change (Py.join Py.nl ("" :: l :: ls)) with (Py.nl +:+ Py.join Py.nl (l :: ls)).
    by rewrite IH.
  - by rewrite join_cons_String, IH.
Qed.

Lemma filter_all {A} (f : A → bool) (l : list A) :
  Forall (λ x, f x = true) l → List.filter f l = l.
Proof.
  induction 1 as [|x l Hx Hl IH]; cbn [List.filter]; [done|].
  by rewrite Hx, IH.
Qed.

(** X24: a patch text that holds no line starting with [#] reaches the
    patch tool unchanged. *)
Theorem patch_body_of_plain (text : string) :
  Forall (λ line, Py.startswith "#" line = false) (Py.split Py.LF text) →
  patch_body_of text = text.
Proof.
  intros Hall. unfold patch_body_of. rewrite filter_all; [apply join_split|].
  eapply Forall_impl; [done|]. by intros line ->.
Qed.

Lemma patch_body_of_plain_witness : patch_body_of Demo.hunk_a = Demo.hunk_a.
Proof.
  apply (patch_body_of_plain Demo.hunk_a). vm_compute. repeat constructor.
Defined.

Lemma reapply_without_body E existing w :
  Py.strip (patch_body_of existing) = "" →
  reapply E existing w = regenerate E w.
Proof.
  intros Hbody. unfold reapply.
  destruct (Py.truthy (Py.strip existing)) eqn:Hnb; [|done].
  apply truthy_true in Hnb. unfold bind.
  by rewrite !apply_patch_comments.
Qed.

(** X25: a stored overlay that holds only comment lines (a header without
    hunks, for one) is not handed to the patch tool; the update succeeds,
    every managed path that the source has ends up equal to the source, and
    the artifact is removed. *)
Theorem update_with_comment_overlay (E : Env) (auto_yes : bool) (w : World)
    (stored : string) :
  git_dir E = true →
  is_Some (source E !! manifest_file) →
  staged_of (git_staged E) ∩ list_to_set (distributable E) = ∅ →
  target w !! patch_file = Some stored →
  Py.strip (patch_body_of stored) = "" →
  ∃ w', cmd_update E auto_yes w = (Ok 0, w')
        ∧ target w' !! patch_file = None
        ∧ (∀ p s, p ∈ distributable E → p ≠ patch_file →
                  source E !! p = Some s → target w' !! p = Some s)
        ∧ (trace w' = (trace w ++ [EvGitStaged])%list
           ∨ trace w' = (trace w ++ [EvGitStaged; EvInput])%list).
Proof.
  intros Hgit Hman Hconf Hst Hbody. unfold cmd_update. rewrite Hgit. cbn [negb].
  rewrite bool_decide_true by done. cbn [negb].
  unfold bind at 1. unfold get_staged_files, bind at 1, log, ret.
  rewrite bool_decide_true by done. cbn [negb].
  match goal with |- context [update_body E auto_yes ?w0] =>
    destruct (update_body_run_prompt E auto_yes w0) as (tr & -> & Htr) end.
  cbn [target trace]. rewrite Hst. cbn [default from_option id].
  rewrite reapply_without_body by done.
  unfold regenerate. unfold bind at 1. cbn [target].
  rewrite refreshed_changed_nil. unfold bind. rewrite write_patch_file_run.
  eexists. split; [reflexivity|]. cbn [target trace]. unfold Tree.store.
  cbn [Py.strip Py.lstrip Py.rstrip Py.truthy].
  split_and!.
  - apply lookup_delete_eq.
  - intros p s Hp Hne Hs. rewrite lookup_delete_ne by done.
    by apply refreshed_lookup_managed.
  - destruct Htr as [-> | ->]; [left|right]; by rewrite <- app_assoc.
Qed.

Lemma update_with_comment_overlay_witness :
  let header := PatchHeader.to_string (mkPatchHeader "abc1234" "2024-05-01") in
  let w := {| target := <[patch_file := header]> Cases.tree_fresh; trace := [] |} in
  ∃ w', cmd_update Demo.env0 false w = (Ok 0, w')
        ∧ target w' !! patch_file = None.
Proof.
  intros header w.
  assert (Hman : is_Some (source Demo.env0 !! manifest_file)).
  { refine (bool_decide_unpack _ _). vm_compute. exact I. }
  assert (Hconf : staged_of (git_staged Demo.env0)
                    ∩ list_to_set (distributable Demo.env0) = ∅).
  { apply intersection_empty_l_L. }
  assert (Hst : target w !! patch_file = Some header) by apply lookup_insert_eq.
  destruct (update_with_comment_overlay Demo.env0 false w header
              eq_refl Hman Hconf Hst eq_refl) as (w' & Hrun & Hov & _).
  by exists w'.
Defined.

(** X26: when the dry run of a non-blank overlay succeeds and the revision
    query succeeds, the update returns 0 whatever the exit code of the real
    application: the tree it leaves is the one the patch tool left, with the
    overlay regenerated from it. *)
Theorem update_after_successful_dry_run (E : Env) (auto_yes : bool) (w : World)
    (stored message stdout stderr : string) :
  git_dir E = true →
  is_Some (source E !! manifest_file) →
  staged_of (git_staged E) ∩ list_to_set (distributable E) = ∅ →
  target w !! patch_file = Some stored →
  Py.strip stored ≠ "" →
  git_rev_parse E = (0, stdout, stderr) →
  let refreshed := {| target := Tree.refreshed E auto_yes (target w); trace := [] |} in
  (apply_patch E stored true refreshed).1 = Ok (true, message) →
  let patched := target (apply_patch E stored false refreshed).2 in
  ∃ w', cmd_update E auto_yes w = (Ok 0, w')
        ∧ target w' = Tree.store (Tree.new_overlay E stdout patched) patched.
Proof.
  intros Hgit Hman Hconf Hst Hnb Hrev refreshed Hdry patched.
  unfold cmd_update. rewrite Hgit. cbn [negb].
  rewrite bool_decide_true by done. cbn [negb].
  unfold bind at 1. unfold get_staged_files, bind at 1, log, ret.
  rewrite bool_decide_true by done. cbn [negb].
  match goal with |- context [update_body E auto_yes ?w0] =>
    destruct (update_body_run E auto_yes w0) as [tr ->] end.
  cbn [target trace]. rewrite Hst. cbn [default from_option id].
  unfold reapply. apply truthy_true in Hnb as ->.
  destruct (apply_patch_trace E stored true (Tree.refreshed E auto_yes (target w))
              ((trace w ++ [EvGitStaged]) ++ tr))
    as (r & t' & tr' & H0 & H1 & Ht').
  unfold refreshed in Hdry. rewrite H0 in Hdry. cbn [fst] in Hdry.
  injection Hdry as ->. specialize (Ht' eq_refl) as ->.
  unfold bind at 1. rewrite H1.
  destruct (apply_patch_trace E stored false (Tree.refreshed E auto_yes (target w))
              (((trace w ++ [EvGitStaged]) ++ tr) ++ tr'))
    as ([ok2 msg2] & t2 & tr2 & H0' & H1' & _).
  subst patched. unfold refreshed. rewrite H0'. cbn [snd target].
  unfold bind. rewrite H1'.
  match goal with |- context [regenerate E ?w0] =>
    destruct (regenerate_run E w0 _ _ _ Hrev) as [tr3 ->] end.
  rewrite orb_true_r. by eexists.
Qed.

Lemma update_after_successful_dry_run_witness :
  ∃ w', cmd_update Demo.env0 false Demo.world0 = (Ok 0, w')
        ∧ target w' = target Demo.world1.
Proof.
  assert (Hman : is_Some (source Demo.env0 !! manifest_file)).
  { refine (bool_decide_unpack _ _). vm_compute. exact I. }
  assert (Hconf : staged_of (git_staged Demo.env0)
                    ∩ list_to_set (distributable Demo.env0) = ∅).
  { apply intersection_empty_l_L. }
  assert (Hst : target Demo.world0 !! patch_file = Some (Demo.overlay "2024-05-01"))
    by (vm_compute; reflexivity).
  assert (Hnb : Py.strip (Demo.overlay "2024-05-01") ≠ "")
    by (vm_compute; congruence).
  destruct (update_after_successful_dry_run Demo.env0 false Demo.world0
              (Demo.overlay "2024-05-01") ("checking file a.txt" +:+ Py.nl) _ _
              eq_refl Hman Hconf Hst Hnb eq_refl) as (w' & Hrun & Ht).
  { vm_compute. reflexivity. }
  exists w'. split; [exact Hrun|]. rewrite Ht. vm_compute. reflexivity.
Defined.

(** ** The overlay store: successive writes *)

(** X27: of two writes in a row only the second counts: the artifact and
    the rest of the tree are as if the first had not happened. *)
Theorem write_patch_file_last_wins (first second : string) (w : World) :
  (write_patch_file second (write_patch_file first w).2).2
  = (write_patch_file second w).2.
Proof.
  rewrite !write_patch_file_run. cbn [snd target trace]. f_equal.
  unfold Tree.store.
  destruct (Py.truthy (Py.strip second)), (Py.truthy (Py.strip first)).
  - apply insert_insert_eq.
  - apply insert_delete_eq.
  - apply delete_insert_eq.
  - apply delete_delete_eq.
Qed.
